(** * scripts/export_lfm2_onnx.py : the ONNX export workflow

    A shallow embedding of the export script.  The script is a linear
    orchestration of third-party calls (transformers, optimum, torch,
    argparse), so the embedding has three layers:

    - the data the script itself manipulates: exceptions and their
      classes, the file tree under which artifacts are written, the
      tokenizer attributes it reads and assigns, the log and stdout;
    - the third-party calls, gathered in the interface [Libs]; every call
      may return or raise, and the two [save_pretrained] calls write files;
    - the script's own functions ([export_lfm2_to_onnx], [verify_export],
      [get_dir_size], [print_usage_instructions], [main] and the module
      body), written in a state-and-exception monad over [world].

    Conventions of the model:
    - an exception carries its class, so that [except Exception] and
      [except ImportError] catch what they catch in Python and nothing
      else;
    - the outcome of a third-party call is a function of its arguments;
      loading calls do not write under the output directory, logging and
      printing do not fail; of the third-party calls only [parse_args]
      writes on stdout (the help text of [--help]);
    - the log is the list of (level, message) pairs handed to the logger,
      stdout the list of printed lines, and the calls made are recorded in
      order in a trace;
    - the float returned by [get_dir_size] is the double nearest to a
      decimal with two places, kept as the number of hundredths of that
      decimal. *)

From Stdlib Require Import String List ZArith Lia Bool DecimalString.
Import ListNotations.
Local Open Scope string_scope.
Local Open Scope list_scope.
Local Open Scope Z_scope.
Set Warnings "-register-all".

(** String concatenation, as in the script's f-strings. *)
Infix "+++" := String.append (right associativity, at level 60).

(* ===================================================================== *)
(** ** Exceptions *)
(* ===================================================================== *)

(** The classes the script's handlers tell apart.  [ExceptionCls] stands
    for any subclass of [Exception] other than the two named ones;
    [KeyboardInterrupt] and [SystemExit] derive from [BaseException] only. *)
Inductive exc_class : Type :=
| ImportError
| OSError
| ExceptionCls
| KeyboardInterrupt
| SystemExit (code : Z).

Record exn : Type := mkExn { exn_class : exc_class; exn_str : string }.

(** [isinstance(e, Exception)], the test of [except Exception]. *)
Definition isinstance_Exception (e : exn) : bool :=
  match exn_class e with
  | ImportError | OSError | ExceptionCls => true
  | KeyboardInterrupt | SystemExit _ => false
  end.

(** [isinstance(e, ImportError)], the test of [except ImportError]. *)
Definition isinstance_ImportError (e : exn) : bool :=
  match exn_class e with
  | ImportError => true
  | _ => false
  end.

(* ===================================================================== *)
(** ** The file tree *)
(* ===================================================================== *)

Definition path := list string.

(** A node carries the [st_size] that [stat()] reports for it.  [Special]
    is anything that is neither a regular file nor a directory (socket,
    fifo, device, dangling link).  The tree the workflow writes holds no
    other symbolic links: [mkdir] creates directories and the two
    [save_pretrained] write regular files.  [get_dir_size] on a tree with
    links is the subject of the module [Links] below, whose functions are
    these ones on a tree without links. *)
Inductive node : Type :=
| File (st_size : N)
| Dir (st_size : N) (entries : list (string * node))
| Special (st_size : N).

Definition node_st_size (n : node) : N :=
  match n with
  | File s | Dir s _ | Special s => s
  end.

Fixpoint assoc (name : string) (es : list (string * node)) : option node :=
  match es with
  | [] => None
  | (k, v) :: es' => if String.eqb k name then Some v else assoc name es'
  end.

Fixpoint lookup (p : path) (n : node) : option node :=
  match p with
  | [] => Some n
  | c :: p' =>
      match n with
      | Dir _ es =>
          match assoc c es with
          | Some n' => lookup p' n'
          | None => None
          end
      | _ => None
      end
  end.

(** Replace or add the entry [name] of a directory listing. *)
Fixpoint put_entry (name : string) (v : node) (es : list (string * node))
  : list (string * node) :=
  match es with
  | [] => [(name, v)]
  | (k, w) :: es' =>
      if String.eqb k name then (k, v) :: es' else (k, w) :: put_entry name v es'
  end.

(** Names are unique inside every directory. *)
Fixpoint names_nodup (names : list string) : bool :=
  match names with
  | [] => true
  | k :: ks => negb (existsb (String.eqb k) ks) && names_nodup ks
  end.

Fixpoint wf_node (n : node) : bool :=
  match n with
  | Dir _ es =>
      names_nodup (map fst es)
      && (fix all (l : list (string * node)) : bool :=
            match l with
            | [] => true
            | (_, c) :: l' => wf_node c && all l'
            end) es
  | _ => true
  end.

(** Relative paths of everything strictly below a node, parents before
    their children: what [rglob('*')] enumerates. *)
Fixpoint descendants (n : node) : list path :=
  match n with
  | Dir _ es =>
      (fix go (l : list (string * node)) : list path :=
         match l with
         | [] => []
         | (name, c) :: l' =>
             ([name] :: map (cons name) (descendants c)) ++ go l'
         end) es
  | _ => []
  end.

(** [path.rglob('*')]: nothing when [path] is missing or not a directory. *)
Definition rglob (p : path) (fs : node) : list path :=
  match lookup p fs with
  | Some n => map (app p) (descendants n)
  | None => []
  end.

(** [file_path.is_file()] *)
Definition is_file (p : path) (fs : node) : bool :=
  match lookup p fs with
  | Some (File _) => true
  | _ => false
  end.

(** [file_path.stat().st_size]; the script only calls it on a path for
    which [is_file] holds, so a missing path is not reached. *)
Definition stat_st_size (p : path) (fs : node) : Z :=
  match lookup p fs with
  | Some n => Z.of_N (node_st_size n)
  | None => 0
  end.

(** Round the rational [num / den] ([den > 0]) to the nearest integer,
    ties to even. *)
Definition round_half_even (num den : Z) : Z :=
  let q := num / den in
  let r := num mod den in
  if 2 * r <? den then q
  else if den <? 2 * r then q + 1
  else if Z.even q then q else q + 1.

(** One iteration of the loop of [get_dir_size]. *)
Definition add_file_size (fs : node) (total_size : Z) (file_path : path) : Z :=
  if is_file file_path fs
  then total_size + stat_st_size file_path fs
  else total_size.

(** The loop of [get_dir_size]: the value of [total_size] at [return]. *)
Definition get_dir_size_total (p : path) (fs : node) : Z :=
  fold_left (add_file_size fs) (rglob p fs) 0.

(** The double nearest to an integer, ties to even.  Integers below 2^53
    are doubles; from 2^53 on a double keeps 53 significant bits, so the
    bits below the unit in the last place [2 ^ (log2 n - 52)] are rounded
    away. *)
Definition nearest_double (n : Z) : Z :=
  if n <? 2 ^ 53 then n
  else
    let ulp := 2 ^ (Z.log2 n - 52) in
    round_half_even n ulp * ulp.

(** [round(total_size / (1024 * 1024), 2)].  The true division of two
    integers gives the double nearest to the quotient, which is
    [nearest_double total_size / 2^20] since the division by a power of two
    is exact on doubles; [round] then rounds the exact value of that double
    to two decimal places, ties to even, and returns the double nearest to
    the decimal.  The decimal is kept as its number of hundredths.  (The
    quotient overflows the doubles, and the division raises, only from
    [total_size] near 2^1044 bytes on.) *)
Definition round_mb_2 (total_size : Z) : Z :=
  round_half_even (nearest_double total_size * 100) (1024 * 1024).

Definition get_dir_size (p : path) (fs : node) : Z :=
  round_mb_2 (get_dir_size_total p fs).

(** The specification's reading of the artifact size: the sizes of all
    regular files recursively under a node, summed. *)
Fixpoint regular_file_sizes (n : node) : list Z :=
  match n with
  | Dir _ es =>
      (fix go (l : list (string * node)) : list Z :=
         match l with
         | [] => []
         | (_, c) :: l' =>
             (match c with File s => [Z.of_N s] | _ => [] end)
               ++ regular_file_sizes c ++ go l'
         end) es
  | _ => []
  end.

Definition sum_Z (l : list Z) : Z := fold_right Z.add 0 l.

Definition sum_regular_files_under (p : path) (fs : node) : Z :=
  match lookup p fs with
  | Some n => sum_Z (regular_file_sizes n)
  | None => 0
  end.

(** Nested fresh directories for the components of [p]. *)
Definition new_dir_st_size : N := 4096.

Fixpoint new_dirs (p : path) : node :=
  match p with
  | [] => Dir new_dir_st_size []
  | c :: p' => Dir new_dir_st_size [(c, new_dirs p')]
  end.

(** [Path.mkdir(parents=True, exist_ok=True)]: missing components are
    created, an existing directory is accepted, and a component that
    exists without being a directory raises an [OSError]
    ([FileExistsError] or [NotADirectoryError]).  The text of the
    exception is its errno part; Python appends the path. *)
Fixpoint mkdir_parents_exist_ok (p : path) (n : node) : exn + node :=
  match p with
  | [] =>
      match n with
      | Dir _ _ => inr n
      | _ => inl (mkExn OSError "[Errno 17] File exists")
      end
  | c :: p' =>
      match n with
      | Dir s es =>
          match assoc c es with
          | Some ch =>
              match mkdir_parents_exist_ok p' ch with
              | inr ch' => inr (Dir s (put_entry c ch' es))
              | inl e => inl e
              end
          | None => inr (Dir s (put_entry c (new_dirs p') es))
          end
      | _ => inl (mkExn OSError "[Errno 20] Not a directory")
      end
  end.

(** Write the regular file [name] of size [sz] into the directory at [p],
    replacing an entry of the same name. *)
Fixpoint put_file_at (p : path) (name : string) (sz : N) (n : node) : node :=
  match p with
  | [] =>
      match n with
      | Dir s es => Dir s (put_entry name (File sz) es)
      | _ => n
      end
  | c :: p' =>
      match n with
      | Dir s es =>
          match assoc c es with
          | Some ch => Dir s (put_entry c (put_file_at p' name sz ch) es)
          | None => n
          end
      | _ => n
      end
  end.

Definition write_files (p : path) (files : list (string * N)) (fs : node) : node :=
  fold_left (fun fs' f => put_file_at p (fst f) (snd f) fs') files fs.

(* ===================================================================== *)
(** ** Tokenizer attributes *)
(* ===================================================================== *)

(** The attributes of a loaded tokenizer.  The script reads [pad_token],
    [eos_token], [pad_token_id] and [eos_token_id] and assigns [pad_token];
    the vocabulary and every other attribute ride along untouched. *)
Record tokenizer : Type := mkTokenizer {
  pad_token : option string;
  eos_token : option string;
  unk_token_id : option Z;
  vocab : list (string * Z);
  other_attributes : list (string * string)
}.

(** [tokenizer.pad_token = v] *)
Definition set_pad_token (t : tokenizer) (v : option string) : tokenizer :=
  mkTokenizer v (eos_token t) (unk_token_id t) (vocab t) (other_attributes t).

Fixpoint vocab_id (tok : string) (v : list (string * Z)) : option Z :=
  match v with
  | [] => None
  | (k, i) :: v' => if String.eqb k tok then Some i else vocab_id tok v'
  end.

(** [convert_tokens_to_ids] on an optional special token. *)
Definition special_token_id (t : tokenizer) (tok : option string) : option Z :=
  match tok with
  | None => None
  | Some s =>
      match vocab_id s (vocab t) with
      | Some i => Some i
      | None => unk_token_id t
      end
  end.

Definition pad_token_id (t : tokenizer) : option Z := special_token_id t (pad_token t).
Definition eos_token_id (t : tokenizer) : option Z := special_token_id t (eos_token t).

(* ===================================================================== *)
(** ** Arguments of the third-party calls *)
(* ===================================================================== *)

Inductive dtype : Type := float16 | float32.

(** Keyword arguments of [AutoModelForCausalLM.from_pretrained]. *)
Record load_kwargs : Type := mkLoadKwargs {
  torch_dtype : dtype;
  device_map : string;
  trust_remote_code : bool
}.

(** Keyword arguments of [model.generate]; the temperature is kept as
    the decimal literal of the source. *)
Record generate_kwargs : Type := mkGenerateKwargs {
  max_length : Z;
  temperature : string;
  do_sample : bool;
  gen_pad_token_id : option Z;
  gen_eos_token_id : option Z
}.

(** One [parser.add_argument] call. *)
Record argument : Type := mkArgument {
  arg_flag : string;
  arg_default : option string;
  arg_store_true : bool;
  arg_help : string
}.

(** The namespace [parse_args] returns for the three arguments. *)
Record Namespace : Type := mkNamespace {
  ns_model_id : string;
  ns_output_dir : string;
  ns_verify : bool
}.

(* ===================================================================== *)
(** ** The world: files, log, stdout and the calls made *)
(* ===================================================================== *)

Inductive level : Type := INFO | WARNING | ERROR.

(** The third-party calls the script makes, in the order it makes them. *)
Inductive event : Type :=
| EvImport (module : string)
| EvLoggingBasicConfig
| EvParseArgs
| EvMkdir (p : path)
| EvTokenizerFromPretrained (model_id : string)
| EvTokenizerSavePretrained (t : tokenizer) (p : path)
| EvModelFromPretrained (model_id : string) (kw : load_kwargs)
| EvCudaIsAvailable
| EvOrtExport (model_id : string) (provider : string)
| EvOrtSavePretrained (p : path)
| EvOrtFromPretrained (p : path)
| EvTokenize (prompt : string)
| EvGenerate (kw : generate_kwargs)
| EvDecode.

Record world : Type := mkWorld {
  w_fs : node;
  w_log : list (level * string);
  w_stdout : list string;
  w_trace : list event
}.

(* ===================================================================== *)
(** ** State and exceptions *)
(* ===================================================================== *)

Inductive result (A : Type) : Type :=
| Return (a : A)
| Raise (e : exn).
Arguments Return {A} a.
Arguments Raise {A} e.

(** A computation runs in a world and returns or raises; what it did to
    the world before raising stays done. *)
Definition M (A : Type) : Type := world -> result A * world.

Definition ret {A} (a : A) : M A := fun w => (Return a, w).

Definition bind {A B} (c : M A) (k : A -> M B) : M B :=
  fun w =>
    match c w with
    | (Return a, w') => k a w'
    | (Raise e, w') => (Raise e, w')
    end.

Definition raise {A} (e : exn) : M A := fun w => (Raise e, w).

(** [try: body  except <cls> as e: handler e], where [catches] is the
    [isinstance] test of the [except] clause. *)
Definition try_except {A} (catches : exn -> bool) (body : M A)
  (handler : exn -> M A) : M A :=
  fun w =>
    match body w with
    | (Return a, w') => (Return a, w')
    | (Raise e, w') => if catches e then handler e w' else (Raise e, w')
    end.

Declare Scope monad_scope.
Delimit Scope monad_scope with monad.
Notation "x <- c1 ;; c2" := (bind c1 (fun x => c2))
  (at level 61, c1 at next level, right associativity) : monad_scope.
Notation "c1 ;; c2" := (bind c1 (fun _ => c2))
  (at level 61, right associativity) : monad_scope.
Local Open Scope monad_scope.

(** Lift the outcome of a third-party call. *)
Definition call {A} (r : exn + A) : M A :=
  match r with
  | inr a => ret a
  | inl e => raise e
  end.

Definition record_event (ev : event) : M unit :=
  fun w => (Return tt, mkWorld (w_fs w) (w_log w) (w_stdout w) (w_trace w ++ [ev])).

Definition logger_log (lv : level) (msg : string) : M unit :=
  fun w => (Return tt, mkWorld (w_fs w) (w_log w ++ [(lv, msg)]) (w_stdout w) (w_trace w)).

Definition logger_info := logger_log INFO.
Definition logger_warning := logger_log WARNING.
Definition logger_error := logger_log ERROR.

Definition print (line : string) : M unit :=
  fun w => (Return tt, mkWorld (w_fs w) (w_log w) (w_stdout w ++ [line]) (w_trace w)).

(** Lines a library call writes on stdout. *)
Definition print_lines (lines : list string) : M unit :=
  fun w => (Return tt, mkWorld (w_fs w) (w_log w) (w_stdout w ++ lines) (w_trace w)).

(** A library call that may print before it raises. *)
Definition call_printing {A} (r : (list string * exn) + A) : M A :=
  match r with
  | inr a => ret a
  | inl (printed, e) => print_lines printed ;; raise e
  end.

Definition get_fs : M node := fun w => (Return (w_fs w), w).

Definition set_fs (fs : node) : M unit :=
  fun w => (Return tt, mkWorld fs (w_log w) (w_stdout w) (w_trace w)).

(** The builtin [exit(code)] raises [SystemExit(code)]. *)
Definition exit {A} (code : Z) : M A := raise (mkExn (SystemExit code) EmptyString).

(* ===================================================================== *)
(** ** The third-party interface *)
(* ===================================================================== *)

(** What transformers, optimum, torch, argparse and pathlib do for the
    script.  A call returns ([inr]) or raises ([inl]).  The loading calls
    read the network or the tree and leave the output directory alone; a
    [save_pretrained] writes regular files into its target directory, named
    and sized by the library, and may raise after some of them. *)
Class Libs : Type := {
  torch_model : Type;
  onnx_model : Type;
  batch_encoding : Type;
  tensor : Type;
  (** [import <module>]: [None] when the import succeeds. *)
  import_module : string -> option exn;
  (** [parser.parse_args()] on the process arguments: a namespace, or the
      lines argparse prints on stdout (the help text of [--help]; the
      message of a usage error goes to stderr) and the [SystemExit] it then
      raises. *)
  parse_args : list argument -> list string -> (list string * exn) + Namespace;
  (** [Path(s)] as components from the root of the tree, and [str(path)]. *)
  Path : string -> path;
  str_path : path -> string;
  AutoTokenizer_from_pretrained : string -> exn + tokenizer;
  tokenizer_save_pretrained : tokenizer -> list (string * N) * option exn;
  AutoModelForCausalLM_from_pretrained : string -> load_kwargs -> exn + torch_model;
  torch_cuda_is_available : bool;
  ORTModelForCausalLM_export : string -> string -> exn + onnx_model;
  onnx_save_pretrained : onnx_model -> list (string * N) * option exn;
  (** [ORTModelForCausalLM.from_pretrained(model_path)] reads the directory. *)
  ORTModelForCausalLM_from_pretrained : option node -> exn + onnx_model;
  tokenizer_call : tokenizer -> string -> exn + batch_encoding;
  getitem_input_ids : batch_encoding -> exn + tensor;
  generate : onnx_model -> tensor -> generate_kwargs -> exn + tensor;
  getitem_0 : tensor -> exn + tensor;
  tokenizer_decode : tokenizer -> tensor -> exn + string
}.

Section Script.
Context {L : Libs}.

(** The effect of a [save_pretrained(p)] whose outcome the library gives:
    the files land in [p], then the call returns or raises. *)
Definition save_pretrained (p : path) (outcome : list (string * N) * option exn)
  : M unit :=
  fs <- get_fs ;;
  set_fs (write_files p (fst outcome) fs) ;;
  match snd outcome with
  | None => ret tt
  | Some e => raise e
  end.

(** [output_path.mkdir(parents=True, exist_ok=True)] *)
Definition mkdir (p : path) : M unit :=
  record_event (EvMkdir p) ;;
  fs <- get_fs ;;
  fs' <- call (mkdir_parents_exist_ok p fs) ;;
  set_fs fs'.

(* ===================================================================== *)
(** ** The script's functions *)
(* ===================================================================== *)

(** [repr] of the float [get_dir_size] returns, from its hundredths:
    ["3.0"], ["3.1"], ["3.05"]. *)
Definition str_of_nat_Z (z : Z) : string :=
  NilZero.string_of_uint (N.to_uint (Z.to_N z)).

Definition repr_hundredths (h : Z) : string :=
  let int_part := h / 100 in
  let frac := h mod 100 in
  str_of_nat_Z int_part +++ "." +++
    (if frac mod 10 =? 0 then str_of_nat_Z (frac / 10)
     else str_of_nat_Z (frac / 10) +++ str_of_nat_Z (frac mod 10)).

Definition newline : string := String (Ascii.ascii_of_nat 10) EmptyString.

(** The double-quote character of the f-strings. *)
Definition dquote : string := String (Ascii.ascii_of_nat 34) EmptyString.

(** ["=" * 50] *)
Definition rule50 : string :=
  "==================================================".

Definition print_usage_instructions (model_path : path) : M unit :=
  print (newline +++ rule50) ;;
  print "USAGE INSTRUCTIONS" ;;
  print rule50 ;;
  print ("Model Path: " +++ str_path model_path) ;;
  print EmptyString ;;
  print "In your Go application:" ;;
  print ("generator := generation.NewHugotGenerator(" +++ dquote +++ str_path model_path +++ dquote +++ ")") ;;
  print EmptyString ;;
  print "Or via config:" ;;
  print ("llm.model_path = " +++ dquote +++ str_path model_path +++ dquote) ;;
  print EmptyString ;;
  print "Recommended generation parameters:" ;;
  print "- temperature: 0.3" ;;
  print "- min_p: 0.15" ;;
  print "- repetition_penalty: 1.05" ;;
  print "- max_new_tokens: 512" ;;
  print EmptyString ;;
  print "For chat templates, use:" ;;
  print ("template := generation.GetChatTemplate(" +++ dquote +++ "lfm2" +++ dquote +++ ")") ;;
  print rule50.

Definition verify_kwargs (tokenizer : tokenizer) : generate_kwargs :=
  mkGenerateKwargs 20 "0.3" true (pad_token_id tokenizer) (eos_token_id tokenizer).

(** The [try] block of [verify_export]. *)
Definition verify_export_body (model_path : path) (tokenizer : tokenizer) : M unit :=
    ( (* Load the exported model *)
      record_event (EvOrtFromPretrained model_path) ;;
      fs <- get_fs ;;
      model <- call (ORTModelForCausalLM_from_pretrained (lookup model_path fs)) ;;
      (* Test with a simple prompt *)
      let test_prompt := "Hello, I am" in
      record_event (EvTokenize test_prompt) ;;
      inputs <- call (tokenizer_call tokenizer test_prompt) ;;
      (* Generate; [torch.no_grad()] only switches gradient tracking off *)
      input_ids <- call (getitem_input_ids inputs) ;;
      record_event (EvGenerate (verify_kwargs tokenizer)) ;;
      outputs <- call (generate model input_ids (verify_kwargs tokenizer)) ;;
      first <- call (getitem_0 outputs) ;;
      record_event EvDecode ;;
      generated_text <- call (tokenizer_decode tokenizer first) ;;
      logger_info ("✅ Verification successful. Generated: '" +++ generated_text +++ "'") ).

Definition verify_export (model_path : path) (tokenizer : tokenizer) : M unit :=
  try_except isinstance_Exception
    (verify_export_body model_path tokenizer)
    (fun e =>
       logger_warning ("Model verification failed: " +++ exn_str e) ;;
       logger_warning "The model was exported but may have issues with inference.").

Definition model_load_kwargs : load_kwargs := mkLoadKwargs float16 "auto" true.

Definition provider : string :=
  if torch_cuda_is_available then "CUDAExecutionProvider" else "CPUExecutionProvider".

Definition export_lfm2_to_onnx (model_id output_dir : string) : M unit :=
  logger_info ("Starting LFM2-350M ONNX export from " +++ model_id) ;;
  (* Create output directory *)
  let output_path := Path output_dir in
  mkdir output_path ;;
  try_except isinstance_Exception
    ( (* Load tokenizer *)
      logger_info "Loading tokenizer..." ;;
      record_event (EvTokenizerFromPretrained model_id) ;;
      tokenizer <- call (AutoTokenizer_from_pretrained model_id) ;;
      (* Set pad token if not present *)
      let tokenizer :=
        match pad_token tokenizer with
        | None => set_pad_token tokenizer (eos_token tokenizer)
        | Some _ => tokenizer
        end in
      (* Save tokenizer *)
      record_event (EvTokenizerSavePretrained tokenizer output_path) ;;
      save_pretrained output_path (tokenizer_save_pretrained tokenizer) ;;
      logger_info ("Tokenizer saved to " +++ str_path output_path) ;;
      (* Load PyTorch model *)
      logger_info "Loading PyTorch model..." ;;
      record_event (EvModelFromPretrained model_id model_load_kwargs) ;;
      model <- call (AutoModelForCausalLM_from_pretrained model_id model_load_kwargs) ;;
      (* Export to ONNX using Optimum *)
      logger_info "Exporting to ONNX format..." ;;
      record_event EvCudaIsAvailable ;;
      record_event (EvOrtExport model_id provider) ;;
      onnx_model <- call (ORTModelForCausalLM_export model_id provider) ;;
      (* Save ONNX model *)
      record_event (EvOrtSavePretrained output_path) ;;
      save_pretrained output_path (onnx_save_pretrained onnx_model) ;;
      logger_info ("ONNX model saved to " +++ str_path output_path) ;;
      (* Verify the export *)
      logger_info "Verifying ONNX export..." ;;
      verify_export output_path tokenizer ;;
      logger_info "✅ LFM2-350M ONNX export completed successfully!" ;;
      logger_info ("Model saved to: " +++ str_path output_path) ;;
      fs <- get_fs ;;
      logger_info ("Model size: " +++ repr_hundredths (get_dir_size output_path fs) +++ " MB") ;;
      (* Print usage instructions *)
      print_usage_instructions output_path )
    (fun e =>
       logger_error ("Export failed: " +++ exn_str e) ;;
       raise e).

(** The stretches of the [try] block of [export_lfm2_to_onnx], named for
    the statements below: tokenizer acquisition (load, pad token, save),
    model acquisition and conversion (PyTorch load, ONNX export, save), and
    the report after verification. *)
Definition resolve_pad_token (tok : tokenizer) : tokenizer :=
  match pad_token tok with
  | None => set_pad_token tok (eos_token tok)
  | Some _ => tok
  end.

Definition acquire_tokenizer (model_id : string) (output_path : path) : M tokenizer :=
  logger_info "Loading tokenizer..." ;;
  record_event (EvTokenizerFromPretrained model_id) ;;
  tokenizer <- call (AutoTokenizer_from_pretrained model_id) ;;
  let tokenizer := resolve_pad_token tokenizer in
  record_event (EvTokenizerSavePretrained tokenizer output_path) ;;
  save_pretrained output_path (tokenizer_save_pretrained tokenizer) ;;
  logger_info ("Tokenizer saved to " +++ str_path output_path) ;;
  ret tokenizer.

Definition load_pytorch_model (model_id : string) : M torch_model :=
  logger_info "Loading PyTorch model..." ;;
  record_event (EvModelFromPretrained model_id model_load_kwargs) ;;
  call (AutoModelForCausalLM_from_pretrained model_id model_load_kwargs).

Definition convert_to_onnx (model_id : string) (output_path : path) : M unit :=
  logger_info "Exporting to ONNX format..." ;;
  record_event EvCudaIsAvailable ;;
  record_event (EvOrtExport model_id provider) ;;
  onnx_model <- call (ORTModelForCausalLM_export model_id provider) ;;
  record_event (EvOrtSavePretrained output_path) ;;
  save_pretrained output_path (onnx_save_pretrained onnx_model) ;;
  logger_info ("ONNX model saved to " +++ str_path output_path).

Definition success_banner : level * string :=
  (INFO, "✅ LFM2-350M ONNX export completed successfully!").

Definition report_success (output_path : path) : M unit :=
  logger_log (fst success_banner) (snd success_banner) ;;
  logger_info ("Model saved to: " +++ str_path output_path) ;;
  fs <- get_fs ;;
  logger_info ("Model size: " +++ repr_hundredths (get_dir_size output_path fs) +++ " MB") ;;
  print_usage_instructions output_path.

(** Everything in the [try] block before the verification. *)
Definition acquire_and_convert (model_id : string) (output_path : path) : M tokenizer :=
  tokenizer <- acquire_tokenizer model_id output_path ;;
  load_pytorch_model model_id ;;
  convert_to_onnx model_id output_path ;;
  ret tokenizer.

(** The [except Exception as e] clause of [export_lfm2_to_onnx]. *)
Definition export_failed (e : exn) : M unit :=
  logger_error ("Export failed: " +++ exn_str e) ;;
  raise e.

(** The world in which the [try] block of [export_lfm2_to_onnx] starts,
    once [mkdir] has left the tree [fs1]. *)
Definition try_start (model_id output_dir : string) (fs1 : node) (w : world) : world :=
  mkWorld fs1
    (w_log w ++ [(INFO, "Starting LFM2-350M ONNX export from " +++ model_id)])
    (w_stdout w)
    (w_trace w ++ [EvMkdir (Path output_dir)]).

(** The lines [print_usage_instructions] prints. *)
Definition usage_lines (model_path : path) : list string :=
  [ newline +++ rule50;
    "USAGE INSTRUCTIONS";
    rule50;
    "Model Path: " +++ str_path model_path;
    EmptyString;
    "In your Go application:";
    "generator := generation.NewHugotGenerator(" +++ dquote +++ str_path model_path +++ dquote +++ ")";
    EmptyString;
    "Or via config:";
    "llm.model_path = " +++ dquote +++ str_path model_path +++ dquote;
    EmptyString;
    "Recommended generation parameters:";
    "- temperature: 0.3";
    "- min_p: 0.15";
    "- repetition_penalty: 1.05";
    "- max_new_tokens: 512";
    EmptyString;
    "For chat templates, use:";
    "template := generation.GetChatTemplate(" +++ dquote +++ "lfm2" +++ dquote +++ ")";
    rule50 ].

(** The imports of the guarded block, in order, and the first exception
    one of them raises. *)
Definition required_modules : list string :=
  ["transformers"; "optimum.onnxruntime"; "torch"].

Fixpoint first_import_error (modules : list string) : option exn :=
  match modules with
  | [] => None
  | m :: ms =>
      match import_module m with
      | Some e => Some e
      | None => first_import_error ms
      end
  end.

(** The three [add_argument] calls of [main]. *)
Definition parser_arguments : list argument :=
  [ mkArgument "--model_id" (Some "LiquidAI/LFM2-350M") false
      "HuggingFace model ID (default: LiquidAI/LFM2-350M)";
    mkArgument "--output_dir" (Some "./models/lfm2-350m-onnx") false
      "Output directory for ONNX model";
    mkArgument "--verify" None true
      "Verify the exported model works" ].

(** [main], after the namespace is parsed. *)
Definition main_with (args : Namespace) : M unit :=
  export_lfm2_to_onnx (ns_model_id args) (ns_output_dir args).

Definition main (argv : list string) : M unit :=
  record_event EvParseArgs ;;
  args <- call_printing (parse_args parser_arguments argv) ;;
  main_with args.

Definition import_ (module : string) : M unit :=
  record_event (EvImport module) ;;
  match import_module module with
  | None => ret tt
  | Some e => raise e
  end.

(** The module body when the file is run as a script. *)
Definition script (argv : list string) : M unit :=
  try_except isinstance_ImportError
    ( import_ "transformers" ;;
      import_ "optimum.onnxruntime" ;;
      import_ "torch" )
    (fun e =>
       print ("Missing required packages: " +++ exn_str e) ;;
       print "Install with: pip install transformers optimum[onnxruntime] torch" ;;
       exit 1) ;;
  (* Configure logging *)
  record_event EvLoggingBasicConfig ;;
  main argv.

(** How the process ends: an exit code, or the traceback of an exception
    nothing caught. *)
Inductive termination : Type :=
| ExitCode (code : Z)
| Uncaught (e : exn).

Definition run_script (argv : list string) (w : world) : termination * world :=
  match script argv w with
  | (Return _, w') => (ExitCode 0, w')
  | (Raise e, w') =>
      match exn_class e with
      | SystemExit code => (ExitCode code, w')
      | _ => (Uncaught e, w')
      end
  end.

(** [export_lfm2_to_onnx] with the PyTorch load step (its log line, the
    call and the binding of [model]) taken out, every other step as in
    the script. *)
Definition export_lfm2_to_onnx_without_load (model_id output_dir : string) : M unit :=
  logger_info ("Starting LFM2-350M ONNX export from " +++ model_id) ;;
  let output_path := Path output_dir in
  mkdir output_path ;;
  try_except isinstance_Exception
    ( logger_info "Loading tokenizer..." ;;
      record_event (EvTokenizerFromPretrained model_id) ;;
      tokenizer <- call (AutoTokenizer_from_pretrained model_id) ;;
      let tokenizer :=
        match pad_token tokenizer with
        | None => set_pad_token tokenizer (eos_token tokenizer)
        | Some _ => tokenizer
        end in
      record_event (EvTokenizerSavePretrained tokenizer output_path) ;;
      save_pretrained output_path (tokenizer_save_pretrained tokenizer) ;;
      logger_info ("Tokenizer saved to " +++ str_path output_path) ;;
      logger_info "Exporting to ONNX format..." ;;
      record_event EvCudaIsAvailable ;;
      record_event (EvOrtExport model_id provider) ;;
      onnx_model <- call (ORTModelForCausalLM_export model_id provider) ;;
      record_event (EvOrtSavePretrained output_path) ;;
      save_pretrained output_path (onnx_save_pretrained onnx_model) ;;
      logger_info ("ONNX model saved to " +++ str_path output_path) ;;
      logger_info "Verifying ONNX export..." ;;
      verify_export output_path tokenizer ;;
      logger_info "✅ LFM2-350M ONNX export completed successfully!" ;;
      logger_info ("Model saved to: " +++ str_path output_path) ;;
      fs <- get_fs ;;
      logger_info ("Model size: " +++ repr_hundredths (get_dir_size output_path fs) +++ " MB") ;;
      print_usage_instructions output_path )
    (fun e =>
       logger_error ("Export failed: " +++ exn_str e) ;;
       raise e).

End Script.

(* ===================================================================== *)
(** ** Concrete libraries and worlds *)
(* ===================================================================== *)

(** Instances of the interface on which the statements below are run.
    Handles are [unit]; the outcomes that differ between runs (tokenizer
    load, PyTorch load, generation, the import of torch) are arguments. *)
Definition lfm2_tokenizer : tokenizer :=
  mkTokenizer None (Some "<|im_end|>") (Some 0) [("<|im_end|>", 7)]
    [("bos_token", "<|startoftext|>")].

Definition padded_tokenizer : tokenizer :=
  mkTokenizer (Some "<|pad|>") (Some "<|im_end|>") (Some 0)
    [("<|pad|>", 0); ("<|im_end|>", 7)] [("bos_token", "<|startoftext|>")].

(** A tokenizer that defines neither a pad nor an end-of-sequence token. *)
Definition bare_tokenizer : tokenizer := mkTokenizer None None None [] [].

Definition tokenizer_file_list : list (string * N) :=
  [("tokenizer.json", 4733040%N); ("tokenizer_config.json", 92212%N);
   ("special_tokens_map.json", 434%N)].

Definition onnx_file_list : list (string * N) :=
  [("model.onnx", 1048576%N); ("config.json", 1021%N)].

Definition test_libs (tok : exn + tokenizer) (load : exn + unit)
  (gen : exn + unit) (import_torch : option exn) : Libs :=
  {| torch_model := unit;
     onnx_model := unit;
     batch_encoding := unit;
     tensor := unit;
     import_module := fun m => if String.eqb m "torch" then import_torch else None;
     parse_args := fun _ argv =>
       inr (mkNamespace "LiquidAI/LFM2-350M" "./models/lfm2-350m-onnx"
              (existsb (String.eqb "--verify") argv));
     Path := fun _ => ["models"; "lfm2-350m-onnx"];
     str_path := fun _ => "models/lfm2-350m-onnx";
     AutoTokenizer_from_pretrained := fun _ => tok;
     tokenizer_save_pretrained := fun _ => (tokenizer_file_list, None);
     AutoModelForCausalLM_from_pretrained := fun _ _ => load;
     torch_cuda_is_available := false;
     ORTModelForCausalLM_export := fun _ _ => inr tt;
     onnx_save_pretrained := fun _ => (onnx_file_list, None);
     ORTModelForCausalLM_from_pretrained := fun _ => inr tt;
     tokenizer_call := fun _ _ => inr tt;
     getitem_input_ids := fun _ => inr tt;
     generate := fun _ _ _ => gen;
     getitem_0 := fun _ => inr tt;
     tokenizer_decode := fun _ _ => inr "Hello, I am a language model" |}.

(** Every call succeeds. *)
Definition ok_libs : Libs := test_libs (inr lfm2_tokenizer) (inr tt) (inr tt) None.

(** The generation of the verification is interrupted from the keyboard. *)
Definition interrupted_generation_libs : Libs :=
  test_libs (inr lfm2_tokenizer) (inr tt)
    (inl (mkExn KeyboardInterrupt EmptyString)) None.

(** The generation of the verification raises a runtime error. *)
Definition failing_generation_libs : Libs :=
  test_libs (inr lfm2_tokenizer) (inr tt)
    (inl (mkExn ExceptionCls "generation failed")) None.

(** The tokenizer download is interrupted from the keyboard. *)
Definition interrupted_download_libs : Libs :=
  test_libs (inl (mkExn KeyboardInterrupt EmptyString)) (inr tt) (inr tt) None.

(** The model identifier names no repository. *)
Definition unknown_model_libs : Libs :=
  test_libs (inl (mkExn OSError "LiquidAI/LFM2-350M is not a valid model identifier"))
    (inr tt) (inr tt) None.

(** The tokenizer comes without pad and end-of-sequence tokens. *)
Definition bare_tokenizer_libs : Libs :=
  test_libs (inr bare_tokenizer) (inr tt) (inr tt) None.

(** The tokenizer comes with a pad token. *)
Definition padded_tokenizer_libs : Libs :=
  test_libs (inr padded_tokenizer) (inr tt) (inr tt) None.

(** The PyTorch load runs out of memory. *)
Definition failing_load_libs : Libs :=
  test_libs (inr lfm2_tokenizer) (inl (mkExn ExceptionCls "CUDA out of memory"))
    (inr tt) None.

(** torch is not installed. *)
Definition no_torch_libs : Libs :=
  test_libs (inr lfm2_tokenizer) (inr tt) (inr tt)
    (Some (mkExn ImportError "No module named 'torch'")).

Definition lfm2_id : string := "LiquidAI/LFM2-350M".
Definition lfm2_dir : string := "./models/lfm2-350m-onnx".

(** An empty root directory, nothing logged or printed yet. *)
Definition fresh_world : world := mkWorld (Dir new_dir_st_size []) [] [] [].

(** The tree once [mkdir] has created the default output directory in
    the empty root. *)
Definition created_tree : node :=
  Dir new_dir_st_size
    [("models", Dir new_dir_st_size [("lfm2-350m-onnx", Dir new_dir_st_size [])])].

(** An output directory holding one file of exactly 1 MiB, next to a
    subdirectory and a fifo. *)
Definition one_mib_tree : node :=
  Dir 4096 [("out", Dir 4096 [("model.onnx", File 1048576);
                              ("cache", Dir 4096 [("blob", File 5)]);
                              ("pipe", Special 0)])].

(** The tokenizers handed to [save_pretrained], in call order. *)
Fixpoint saved_tokenizers (tr : list event) : list tokenizer :=
  match tr with
  | [] => []
  | EvTokenizerSavePretrained t _ :: tr' => t :: saved_tokenizers tr'
  | _ :: tr' => saved_tokenizers tr'
  end.

(** Events by which model loading and ONNX conversion begin. *)
Definition is_model_event (ev : event) : bool :=
  match ev with
  | EvModelFromPretrained _ _ | EvOrtExport _ _ | EvOrtSavePretrained _ => true
  | _ => false
  end.

(** Calls made by the verification after the reload. *)
Definition is_verify_event (ev : event) : bool :=
  match ev with
  | EvTokenize _ | EvGenerate _ | EvDecode => true
  | _ => false
  end.

(** Every file of a list written by [save_pretrained] is a regular file
    of the directory [p]. *)
Definition files_present (p : path) (files : list (string * N)) (fs : node) : Prop :=
  forall name sz, In (name, sz) files -> is_file (p ++ [name]) fs = true.

(** [p] names a directory of the tree. *)
Definition is_dir (p : path) (fs : node) : Prop :=
  exists s es, lookup p fs = Some (Dir s es).

(** Two worlds that hold the same artifacts: the same tree and the same
    standard output; the log and the record of calls are left aside. *)
Definition same_artifacts (w w' : world) : Prop :=
  w_fs w = w_fs w' /\ w_stdout w = w_stdout w'.

(** Two computations that, from worlds with the same artifacts, end the
    same way in worlds with the same artifacts. *)
Definition same_outcome {A} (c1 c2 : M A) : Prop :=
  forall w w', same_artifacts w w' ->
    fst (c1 w) = fst (c2 w') /\ same_artifacts (snd (c1 w)) (snd (c2 w')).

(* ===================================================================== *)
(** ** Vocabulary of the further properties *)
(* ===================================================================== *)

(** The third-party calls of a complete run, in program order, for the
    tokenizer [t] that is handed to [save_pretrained]. *)
Definition workflow_calls {L : Libs} (model_id : string) (p : path) (t : tokenizer)
  : list event :=
  [ EvMkdir p;
    EvTokenizerFromPretrained model_id;
    EvTokenizerSavePretrained t p;
    EvModelFromPretrained model_id model_load_kwargs;
    EvCudaIsAvailable;
    EvOrtExport model_id provider;
    EvOrtSavePretrained p;
    EvOrtFromPretrained p;
    EvTokenize "Hello, I am";
    EvGenerate (verify_kwargs t);
    EvDecode ].

(** The calls that come after a call: none when it raised. *)
Definition and_then {A} (r : exn + A) (k : A -> list event) : list event :=
  match r with
  | inr a => k a
  | inl _ => []
  end.

(** The calls that come after a [save_pretrained]. *)
Definition after_save (outcome : list (string * N) * option exn)
  (k : list event) : list event :=
  match snd outcome with
  | None => k
  | Some _ => []
  end.

(** The third-party calls of the run of [export_lfm2_to_onnx] that starts
    on the tree [fs], from the outcomes of the calls themselves: every call
    is listed when it is made, and the ones that follow it only if it
    returned.  The two subscripts ([inputs["input_ids"]], [outputs[0]]) are
    not listed but stop the run as well when they raise. *)
Definition calls_made {L : Libs} (model_id : string) (p : path) (fs : node)
  : list event :=
  EvMkdir p ::
  and_then (mkdir_parents_exist_ok p fs) (fun fs1 =>
  EvTokenizerFromPretrained model_id ::
  and_then (AutoTokenizer_from_pretrained model_id) (fun tok =>
  let t := resolve_pad_token tok in
  EvTokenizerSavePretrained t p ::
  after_save (tokenizer_save_pretrained t) (
  EvModelFromPretrained model_id model_load_kwargs ::
  and_then (AutoModelForCausalLM_from_pretrained model_id model_load_kwargs) (fun _ =>
  EvCudaIsAvailable ::
  EvOrtExport model_id provider ::
  and_then (ORTModelForCausalLM_export model_id provider) (fun onnx =>
  EvOrtSavePretrained p ::
  after_save (onnx_save_pretrained onnx) (
  let fs2 :=
    write_files p (fst (onnx_save_pretrained onnx))
      (write_files p (fst (tokenizer_save_pretrained t)) fs1) in
  EvOrtFromPretrained p ::
  and_then (ORTModelForCausalLM_from_pretrained (lookup p fs2)) (fun model =>
  EvTokenize "Hello, I am" ::
  and_then (tokenizer_call t "Hello, I am") (fun inputs =>
  and_then (getitem_input_ids inputs) (fun input_ids =>
  EvGenerate (verify_kwargs t) ::
  and_then (generate model input_ids (verify_kwargs t)) (fun outputs =>
  and_then (getitem_0 outputs) (fun _ =>
  [EvDecode]))))))))))).

(** The entries of a log at level ERROR. *)
Definition is_error (entry : level * string) : bool :=
  match fst entry with
  | ERROR => true
  | _ => false
  end.

Definition errors_logged (entries : list (level * string)) : list (level * string) :=
  filter is_error entries.

(** A tree in which the first component of the default output directory
    is taken by a regular file. *)
Definition blocked_tree : node := Dir new_dir_st_size [("models", File 3)].

(** torch is installed but a shared library it loads is missing. *)
Definition broken_torch_libs : Libs :=
  test_libs (inr lfm2_tokenizer) (inr tt) (inr tt)
    (Some (mkExn OSError "libcudart.so: cannot open shared object file")).

(** What [--help] prints for the script's parser, on a wide terminal. *)
Definition help_text : list string :=
  ["usage: export_lfm2_onnx.py [-h] [--model_id MODEL_ID] [--output_dir OUTPUT_DIR] [--verify]";
   EmptyString;
   "Export LFM2-350M to ONNX format";
   EmptyString;
   "options:";
   "  -h, --help            show this help message and exit";
   "  --model_id MODEL_ID   HuggingFace model ID (default: LiquidAI/LFM2-350M)";
   "  --output_dir OUTPUT_DIR";
   "                        Output directory for ONNX model";
   "  --verify              Verify the exported model works"].

(** [parse_args] prints the help for [--help] and exits with code 0; it
    meets an unknown argument otherwise and exits with code 2, its message
    on stderr. *)
Definition usage_error_libs : Libs :=
  {| torch_model := unit;
     onnx_model := unit;
     batch_encoding := unit;
     tensor := unit;
     import_module := fun _ => None;
     parse_args := fun _ argv =>
       match argv with
       | ["--help"] => inl (help_text, mkExn (SystemExit 0) EmptyString)
       | _ => inl ([], mkExn (SystemExit 2) "unrecognized arguments: --verfy")
       end;
     Path := fun _ => ["models"; "lfm2-350m-onnx"];
     str_path := fun _ => "models/lfm2-350m-onnx";
     AutoTokenizer_from_pretrained := fun _ => inr lfm2_tokenizer;
     tokenizer_save_pretrained := fun _ => (tokenizer_file_list, None);
     AutoModelForCausalLM_from_pretrained := fun _ _ => inr tt;
     torch_cuda_is_available := false;
     ORTModelForCausalLM_export := fun _ _ => inr tt;
     onnx_save_pretrained := fun _ => (onnx_file_list, None);
     ORTModelForCausalLM_from_pretrained := fun _ => inr tt;
     tokenizer_call := fun _ _ => inr tt;
     getitem_input_ids := fun _ => inr tt;
     generate := fun _ _ _ => inr tt;
     getitem_0 := fun _ => inr tt;
     tokenizer_decode := fun _ _ => inr "Hello, I am a language model" |}.

(** A world whose tree blocks the default output directory. *)
Definition blocked_world : world := mkWorld blocked_tree [] [] [].

(** A world with the default output directory in place. *)
Definition created_world : world := mkWorld created_tree [] [] [].

(* ===================================================================== *)
(** ** [get_dir_size] on a tree with symbolic links *)
(* ===================================================================== *)

(** The tree [get_dir_size] reads may hold symbolic links: [rglob] lists a
    link like any entry without descending into it, while [is_file()] and
    [stat()] follow it.  [get_dir_size] only reads, so the tree is a
    snapshot in which a link carries what it resolves to ([None] for a
    dangling or looping link).  The functions keep their names. *)
Module Links.

Inductive node : Type :=
| File (st_size : N)
| Dir (st_size : N) (entries : list (string * node))
| Special (st_size : N)
| Symlink (target : option node).

Definition node_st_size (n : node) : N :=
  match n with
  | File s | Dir s _ | Special s => s
  | Symlink _ => 0%N
  end.

(** What a path names once links are followed. *)
Fixpoint follow (n : node) : option node :=
  match n with
  | Symlink target =>
      match target with
      | Some t => follow t
      | None => None
      end
  | _ => Some n
  end.

Fixpoint assoc (name : string) (es : list (string * node)) : option node :=
  match es with
  | [] => None
  | (k, v) :: es' => if String.eqb k name then Some v else assoc name es'
  end.

(** The entry a path names; links met on the way are followed, the last
    component is not. *)
Fixpoint lookup (p : path) (n : node) : option node :=
  match p with
  | [] => Some n
  | c :: p' =>
      match follow n with
      | Some (Dir _ es) =>
          match assoc c es with
          | Some n' => lookup p' n'
          | None => None
          end
      | _ => None
      end
  end.

(** Names are unique inside every directory, also behind links. *)
Fixpoint wf_node (n : node) : bool :=
  match n with
  | Dir _ es =>
      names_nodup (map fst es)
      && (fix all (l : list (string * node)) : bool :=
            match l with
            | [] => true
            | (_, c) :: l' => wf_node c && all l'
            end) es
  | Symlink target =>
      match target with
      | Some t => wf_node t
      | None => true
      end
  | _ => true
  end.

(** Relative paths of everything strictly below a node, parents before
    their children; a link is listed and not entered. *)
Fixpoint descendants (n : node) : list path :=
  match n with
  | Dir _ es =>
      (fix go (l : list (string * node)) : list path :=
         match l with
         | [] => []
         | (name, c) :: l' =>
             ([name] :: map (cons name) (descendants c)) ++ go l'
         end) es
  | _ => []
  end.

(** [path.rglob('*')]; the path itself may be a link to a directory. *)
Definition rglob (p : path) (fs : node) : list path :=
  match lookup p fs with
  | Some n =>
      match follow n with
      | Some d => map (app p) (descendants d)
      | None => []
      end
  | None => []
  end.

(** [file_path.is_file()]: true for a regular file and for a link that
    resolves to one. *)
Definition is_file (p : path) (fs : node) : bool :=
  match lookup p fs with
  | Some n =>
      match follow n with
      | Some (File _) => true
      | _ => false
      end
  | None => false
  end.

(** [file_path.stat().st_size], of the file a link resolves to. *)
Definition stat_st_size (p : path) (fs : node) : Z :=
  match lookup p fs with
  | Some n =>
      match follow n with
      | Some t => Z.of_N (node_st_size t)
      | None => 0
      end
  | None => 0
  end.

Definition add_file_size (fs : node) (total_size : Z) (file_path : path) : Z :=
  if is_file file_path fs
  then total_size + stat_st_size file_path fs
  else total_size.

Definition get_dir_size_total (p : path) (fs : node) : Z :=
  fold_left (add_file_size fs) (rglob p fs) 0.

Definition get_dir_size (p : path) (fs : node) : Z :=
  round_mb_2 (get_dir_size_total p fs).

(** The sizes of the regular files recursively under a node (links are
    not entered), and the sizes of the regular files that the links under
    it resolve to. *)
Fixpoint regular_file_sizes (n : node) : list Z :=
  match n with
  | Dir _ es =>
      (fix go (l : list (string * node)) : list Z :=
         match l with
         | [] => []
         | (_, c) :: l' =>
             (match c with File s => [Z.of_N s] | _ => [] end)
               ++ regular_file_sizes c ++ go l'
         end) es
  | _ => []
  end.

Fixpoint link_target_sizes (n : node) : list Z :=
  match n with
  | Dir _ es =>
      (fix go (l : list (string * node)) : list Z :=
         match l with
         | [] => []
         | (_, c) :: l' =>
             (match c with
              | Symlink _ =>
                  match follow c with
                  | Some (File s) => [Z.of_N s]
                  | _ => []
                  end
              | _ => []
              end)
               ++ link_target_sizes c ++ go l'
         end) es
  | _ => []
  end.

(** The directory a path names, links followed. *)
Definition directory_at (p : path) (fs : node) : option node :=
  match lookup p fs with
  | Some n => follow n
  | None => None
  end.

Definition sum_regular_files_under (p : path) (fs : node) : Z :=
  match directory_at p fs with
  | Some d => sum_Z (regular_file_sizes d)
  | None => 0
  end.

Definition sum_link_targets_under (p : path) (fs : node) : Z :=
  match directory_at p fs with
  | Some d => sum_Z (link_target_sizes d)
  | None => 0
  end.

End Links.

(** A tree without links as a snapshot. *)
Fixpoint without_links (n : node) : Links.node :=
  match n with
  | File s => Links.File s
  | Dir s es =>
      Links.Dir s
        ((fix go (l : list (string * node)) : list (string * Links.node) :=
            match l with
            | [] => []
            | (k, c) :: l' => (k, without_links c) :: go l'
            end) es)
  | Special s => Links.Special s
  end.

(** An output directory with a 1 MiB model, and a link to a 3 MiB file
    that lies outside the directory. *)
Definition linked_tree : Links.node :=
  Links.Dir 4096
    [("elsewhere", Links.Dir 4096 [("weights.bin", Links.File 3145728)]);
     ("out", Links.Dir 4096
               [("model.onnx", Links.File 1048576);
                ("weights.bin", Links.Symlink (Some (Links.File 3145728)));
                ("data", Links.Symlink
                           (Some (Links.Dir 4096 [("big", Links.File 7)])));
                ("gone", Links.Symlink None)])].

(** The same output directory when the file outside it has grown. *)
Definition linked_tree_grown : Links.node :=
  Links.Dir 4096
    [("elsewhere", Links.Dir 4096 [("weights.bin", Links.File 4194304)]);
     ("out", Links.Dir 4096
               [("model.onnx", Links.File 1048576);
                ("weights.bin", Links.Symlink (Some (Links.File 4194304)));
                ("data", Links.Symlink
                           (Some (Links.Dir 4096 [("big", Links.File 7)])));
                ("gone", Links.Symlink None)])].

(** The output directory of [linked_tree] in a tree that holds other
    things beside it. *)
Definition linked_tree_elsewhere : Links.node :=
  Links.Dir 4096
    [("home", Links.Dir 4096 [("notes.txt", Links.File 1200)]);
     ("out", Links.Dir 4096
               [("model.onnx", Links.File 1048576);
                ("weights.bin", Links.Symlink (Some (Links.File 3145728)));
                ("data", Links.Symlink
                           (Some (Links.Dir 4096 [("big", Links.File 7)])));
                ("gone", Links.Symlink None)])].

(* ===================================================================== *)
(** * Properties *)
(* ===================================================================== *)

(** ** The file tree *)

(** Induction over the tree that reaches the children of a directory. *)
Lemma node_rect_entries (P : node -> Prop)
  (HF : forall s, P (File s))
  (HS : forall s, P (Special s))
  (HD : forall s es, Forall (fun e => P (snd e)) es -> P (Dir s es)) :
  forall n, P n.
Proof.
  fix IH 1. intros [s | s es | s].
  - apply HF.
  - apply HD. induction es as [| [k c] es IHes]; constructor.
    + simpl. apply IH.
    + exact IHes.
  - apply HS.
Qed.

Lemma lookup_app (p q : path) (fs : node) :
  lookup (p ++ q) fs =
  match lookup p fs with Some n => lookup q n | None => None end.
Proof.
  revert fs. induction p as [| c p IH]; intros fs; simpl.
  - reflexivity.
  - destruct fs as [s | s es | s]; try reflexivity.
    destruct (assoc c es); [apply IH | reflexivity].
Qed.

(** The loop adds to whatever the accumulator holds. *)
Lemma fold_add_file_size_acc (fs : node) (l : list path) (a : Z) :
  fold_left (add_file_size fs) l a = a + fold_left (add_file_size fs) l 0.
Proof.
  revert a. induction l as [| p l IH]; intros a; simpl.
  - lia.
  - rewrite IH, (IH (add_file_size fs 0 p)).
    unfold add_file_size. destruct (is_file p fs); lia.
Qed.

Lemma fold_add_file_size_app (fs : node) (l1 l2 : list path) :
  fold_left (add_file_size fs) (l1 ++ l2) 0
  = fold_left (add_file_size fs) l1 0 + fold_left (add_file_size fs) l2 0.
Proof.
  rewrite fold_left_app. apply fold_add_file_size_acc.
Qed.

Lemma sum_Z_app (l1 l2 : list Z) : sum_Z (l1 ++ l2) = sum_Z l1 + sum_Z l2.
Proof.
  induction l1 as [| x l1 IH]; simpl; [reflexivity | rewrite IH; lia].
Qed.

(** Unfolding equations of the nested recursions, one entry at a time. *)
Lemma descendants_cons s k c l :
  descendants (Dir s ((k, c) :: l))
  = ([k] :: map (cons k) (descendants c)) ++ descendants (Dir s l).
Proof. reflexivity. Qed.

Lemma regular_file_sizes_cons s k c l :
  regular_file_sizes (Dir s ((k, c) :: l))
  = (match c with File sz => [Z.of_N sz] | _ => [] end)
      ++ regular_file_sizes c ++ regular_file_sizes (Dir s l).
Proof. reflexivity. Qed.

Lemma wf_node_cons s k c l :
  wf_node (Dir s ((k, c) :: l)) = true ->
  existsb (String.eqb k) (map fst l) = false
  /\ wf_node c = true /\ wf_node (Dir s l) = true.
Proof.
  simpl. rewrite !andb_true_iff, negb_true_iff.
  intros [[Hk Hn] [Hc Hl]]. repeat split; assumption.
Qed.

(** In a listing with unique names, every entry is the one [assoc] finds. *)
Lemma assoc_In_nodup (es : list (string * node)) k c :
  names_nodup (map fst es) = true -> In (k, c) es -> assoc k es = Some c.
Proof.
  induction es as [| [k' c'] es IH]; simpl; [tauto |].
  rewrite andb_true_iff, negb_true_iff. intros [Hk Hn] [Heq | Hin].
  - inversion Heq; subst. rewrite String.eqb_refl. reflexivity.
  - destruct (String.eqb_spec k' k) as [-> | _]; [| auto].
    exfalso. apply (in_map fst) in Hin. simpl in Hin.
    assert (existsb (String.eqb k) (map fst es) = true) as Hex.
    { apply existsb_exists. exists k. split; [exact Hin | apply String.eqb_refl]. }
    congruence.
Qed.

Lemma map_app_cons (p : path) (k : string) (l : list path) :
  map (app p) (map (cons k) l) = map (app (p ++ [k])) l.
Proof.
  rewrite map_map. apply map_ext. intros q. rewrite <- app_assoc. reflexivity.
Qed.

(** The loop over the enumeration of a well-formed subtree adds up exactly
    the sizes of the regular files below it. *)
Lemma fold_descendants (fs : node) :
  forall n p,
    wf_node n = true ->
    lookup p fs = Some n ->
    fold_left (add_file_size fs) (map (app p) (descendants n)) 0
    = sum_Z (regular_file_sizes n).
Proof.
  induction n as [s | s | s es IHes] using node_rect_entries;
    intros p Hwf Hp; try reflexivity.
  assert (forall k c, In (k, c) es -> lookup (p ++ [k]) fs = Some c) as Hent.
  { intros k c Hin. rewrite lookup_app, Hp. simpl.
    simpl in Hwf. apply andb_true_iff in Hwf as [Hn _].
    rewrite (assoc_In_nodup es k c Hn Hin). reflexivity. }
  clear Hp. induction es as [| [k c] l IHl]; [reflexivity |].
  apply wf_node_cons in Hwf as (_ & Hc & Hl).
  inversion IHes as [| ? ? IHc IHrest]; subst. simpl in IHc.
  rewrite descendants_cons, regular_file_sizes_cons.
  rewrite map_app, fold_add_file_size_app, map_cons, map_app_cons.
  cbn [fold_left].
  rewrite fold_add_file_size_acc.
  rewrite (IHc (p ++ [k]) Hc (Hent k c (or_introl eq_refl))).
  rewrite IHl; [| exact IHrest | exact Hl | intros; apply Hent; right; assumption].
  rewrite !sum_Z_app.
  assert (add_file_size fs 0 (p ++ [k])
          = sum_Z (match c with File sz => [Z.of_N sz] | _ => [] end)) as ->.
  { unfold add_file_size, is_file, stat_st_size.
    rewrite (Hent k c (or_introl eq_refl)). destruct c; simpl; lia. }
  lia.
Qed.

Lemma sum_Z_nonneg (l : list Z) : Forall (fun x => 0 <= x) l -> 0 <= sum_Z l.
Proof.
  induction 1; simpl; lia.
Qed.

Lemma regular_file_sizes_nonneg (n : node) :
  Forall (fun x => 0 <= x) (regular_file_sizes n).
Proof.
  induction n as [s | s | s es IHes] using node_rect_entries;
    try (constructor; fail).
  induction es as [| [k c] l IHl]; [constructor |].
  inversion IHes as [| ? ? IHc IHrest]; subst. simpl in IHc.
  rewrite regular_file_sizes_cons. rewrite !Forall_app. repeat split.
  - destruct c; repeat constructor; lia.
  - exact IHc.
  - apply IHl, IHrest.
Qed.

Lemma round_half_even_nonneg (num den : Z) :
  0 <= num -> 0 < den -> 0 <= round_half_even num den.
Proof.
  intros Hn Hd. unfold round_half_even.
  assert (0 <= num / den) by (apply Z.div_pos; lia).
  destruct (2 * (num mod den) <? den); [lia |].
  destruct (den <? 2 * (num mod den)); [lia |].
  destruct (Z.even (num / den)); lia.
Qed.

Lemma get_dir_size_total_sum (p : path) (fs : node) :
  wf_node fs = true ->
  get_dir_size_total p fs = sum_regular_files_under p fs.
Proof.
  intros Hwf. unfold get_dir_size_total, sum_regular_files_under, rglob.
  destruct (lookup p fs) as [n |] eqn:Hp; [| reflexivity].
  apply fold_descendants; [| exact Hp].
  clear - Hwf Hp. revert fs Hwf Hp.
  induction p as [| c p IH]; intros fs Hwf Hp; simpl in Hp.
  - congruence.
  - destruct fs as [s | s es | s]; try discriminate.
    destruct (assoc c es) as [ch |] eqn:Hc; [| discriminate].
    apply (IH ch); [| exact Hp].
    clear - Hwf Hc. simpl in Hwf. apply andb_true_iff in Hwf as [_ Hall].
    induction es as [| [k v] es IHes]; simpl in *; [discriminate |].
    apply andb_true_iff in Hall as [Hv Hall].
    destruct (String.eqb k c); [congruence | auto].
Qed.

(** C5, as stated, fails, twice over.  For a directory holding
    1 MiB + 5 bytes of regular files the script reports 1.0 (100
    hundredths), which is the sum 1048581 neither in bytes nor in
    megabytes.  And for a directory holding a 1 MiB regular file and a
    symbolic link to a 3 MiB file outside it, the script reports 4.0: the
    link's target is counted, and the report grows to 5.0 when the file
    outside the directory grows by 1 MiB, the regular files under the
    directory being the same. *)
Lemma get_dir_size_not_the_sum :
  sum_regular_files_under ["out"] one_mib_tree = 1048581
  /\ get_dir_size ["out"] one_mib_tree = 100
  /\ get_dir_size ["out"] one_mib_tree
     <> 100 * sum_regular_files_under ["out"] one_mib_tree
  /\ get_dir_size ["out"] one_mib_tree * (1024 * 1024)
     <> 100 * sum_regular_files_under ["out"] one_mib_tree
  /\ Links.sum_regular_files_under ["out"] linked_tree = 1048576
  /\ Links.get_dir_size ["out"] linked_tree = 400
  /\ Links.sum_regular_files_under ["out"] linked_tree_grown = 1048576
  /\ Links.get_dir_size ["out"] linked_tree_grown = 500.
Proof.
  repeat split; vm_compute; congruence.
Qed.

(** ** Writing into the output directory *)

Lemma assoc_put_entry (k k' : string) (v : node) (es : list (string * node)) :
  assoc k' (put_entry k v es) = if String.eqb k k' then Some v else assoc k' es.
Proof.
  induction es as [| [a b] es IH]; simpl.
  - reflexivity.
  - destruct (String.eqb_spec a k) as [-> | Hak]; simpl.
    + destruct (String.eqb k k'); reflexivity.
    + destruct (String.eqb_spec a k') as [-> | Hak'].
      * destruct (String.eqb_spec k k'); [congruence | reflexivity].
      * exact IH.
Qed.

Lemma new_dirs_is_dir (p : path) : is_dir p (new_dirs p).
Proof.
  induction p as [| c p IH]; simpl.
  - eexists _, _. reflexivity.
  - unfold is_dir. simpl. rewrite String.eqb_refl. exact IH.
Qed.

(** After a successful [mkdir] the output path is a directory. *)
Lemma mkdir_parents_exist_ok_is_dir (p : path) :
  forall fs fs', mkdir_parents_exist_ok p fs = inr fs' -> is_dir p fs'.
Proof.
  induction p as [| c p IH]; intros fs fs' H; simpl in H.
  - destruct fs; inversion H; subst. eexists _, _. reflexivity.
  - destruct fs as [s | s es | s]; try discriminate.
    destruct (assoc c es) as [ch |] eqn:Hc.
    + destruct (mkdir_parents_exist_ok p ch) as [e | ch'] eqn:Hm; inversion H; subst.
      unfold is_dir. simpl. rewrite assoc_put_entry, String.eqb_refl.
      exact (IH _ _ Hm).
    + inversion H; subst. unfold is_dir. simpl.
      rewrite assoc_put_entry, String.eqb_refl. apply new_dirs_is_dir.
Qed.

(** What a write into the directory [p] does to the entries of [p]. *)
Lemma lookup_put_file_at (p : path) (name : string) (sz : N) :
  forall fs, is_dir p fs ->
    is_dir p (put_file_at p name sz fs)
    /\ forall k, lookup (p ++ [k]) (put_file_at p name sz fs)
                 = if String.eqb name k then Some (File sz) else lookup (p ++ [k]) fs.
Proof.
  induction p as [| c p IH]; intros fs (s & es & Hd); simpl in Hd.
  - inversion Hd; subst. split.
    + eexists _, _. reflexivity.
    + intros k. simpl. rewrite assoc_put_entry.
      destruct (String.eqb name k); [reflexivity |].
      destruct (assoc k es); reflexivity.
  - destruct fs as [s0 | s0 es0 | s0]; try discriminate.
    destruct (assoc c es0) as [ch |] eqn:Hc; [| discriminate].
    destruct (IH ch (ex_intro _ s (ex_intro _ es Hd))) as [Hdir Hk].
    simpl. rewrite Hc. split.
    + unfold is_dir. simpl. rewrite assoc_put_entry, String.eqb_refl. exact Hdir.
    + intros k. simpl. rewrite assoc_put_entry, String.eqb_refl.
      rewrite ?Hc. apply Hk.
Qed.

Lemma is_file_put_file_at (p : path) (name : string) (sz : N) (fs : node) (k : string) :
  is_dir p fs ->
  is_file (p ++ [k]) (put_file_at p name sz fs)
  = (String.eqb name k || is_file (p ++ [k]) fs).
Proof.
  intros Hd. unfold is_file.
  rewrite (proj2 (lookup_put_file_at p name sz fs Hd) k).
  destruct (String.eqb name k); reflexivity.
Qed.

(** A [save_pretrained] into a directory leaves it a directory, puts all
    its files there and keeps the regular files that were there. *)
Lemma write_files_spec (p : path) (files : list (string * N)) :
  forall fs, is_dir p fs ->
    is_dir p (write_files p files fs)
    /\ files_present p files (write_files p files fs)
    /\ forall k, is_file (p ++ [k]) fs = true ->
                 is_file (p ++ [k]) (write_files p files fs) = true.
Proof.
  unfold write_files, files_present.
  induction files as [| [name sz] files IH]; intros fs Hd; simpl.
  - repeat split; [exact Hd | intros _ _ [] | auto].
  - pose proof (lookup_put_file_at p name sz fs Hd) as [Hd' _].
    destruct (IH _ Hd') as (Hdir & Hnew & Hkeep).
    repeat split.
    + exact Hdir.
    + intros n s [Heq | Hin].
      * inversion Heq; subst. apply Hkeep.
        rewrite is_file_put_file_at by exact Hd.
        rewrite String.eqb_refl. reflexivity.
      * exact (Hnew n s Hin).
    + intros k Hk. apply Hkeep.
      rewrite is_file_put_file_at by exact Hd. rewrite Hk. apply orb_true_r.
Qed.

Lemma files_present_write_files (p : path) (files later : list (string * N)) (fs : node) :
  is_dir p fs ->
  files_present p files (write_files p later (write_files p files fs)).
Proof.
  intros Hd name sz Hin.
  destruct (write_files_spec p files fs Hd) as (Hd1 & Hnew & _).
  destruct (write_files_spec p later _ Hd1) as (_ & _ & Hkeep).
  apply Hkeep. exact (Hnew name sz Hin).
Qed.

(** ** The workflow *)

Lemma saved_tokenizers_app (tr1 tr2 : list event) :
  saved_tokenizers (tr1 ++ tr2) = saved_tokenizers tr1 ++ saved_tokenizers tr2.
Proof.
  induction tr1 as [| ev tr1 IH]; simpl; [reflexivity |].
  destruct ev; simpl; rewrite ?IH; reflexivity.
Qed.

Lemma verify_events_not_saves (evs : list event) :
  forallb is_verify_event evs = true ->
  saved_tokenizers evs = [] /\ forallb (fun ev => negb (is_model_event ev)) evs = true.
Proof.
  induction evs as [| ev evs IH]; simpl; [auto |].
  rewrite andb_true_iff. intros [Hev Hevs]. destruct (IH Hevs) as [IH1 IH2].
  destruct ev; try discriminate; simpl; auto.
Qed.

(** A run of events that starts with events of no model call: the model
    call found later lies beyond that start. *)
Lemma model_event_after_prefix (start rest pre post : list event) (ev : event) :
  start ++ rest = pre ++ ev :: post ->
  forallb (fun x => negb (is_model_event x)) start = true ->
  is_model_event ev = true ->
  exists mid, pre = start ++ mid /\ rest = mid ++ ev :: post.
Proof.
  revert pre. induction start as [| a start IH]; intros pre Heq Hstart Hev.
  - exists pre. auto.
  - simpl in Hstart. apply andb_true_iff in Hstart as [Ha Hstart].
    destruct pre as [| b pre]; simpl in Heq; injection Heq as -> Heq.
    + rewrite Hev in Ha. discriminate.
    + destruct (IH pre Heq Hstart Hev) as (mid & -> & ->).
      exists mid. auto.
Qed.

Lemma no_model_event (evs pre post : list event) (ev : event) :
  forallb (fun x => negb (is_model_event x)) evs = true ->
  evs = pre ++ ev :: post ->
  is_model_event ev = true ->
  False.
Proof.
  intros Hevs Heq Hev. rewrite <- (app_nil_r evs) in Heq.
  destruct (model_event_after_prefix _ _ _ _ _ Heq Hevs Hev) as (mid & _ & Hnil).
  destruct mid; discriminate.
Qed.

(** ** Computations that agree on the artifacts *)

Lemma same_outcome_ret {A} (a : A) : same_outcome (ret a) (ret a).
Proof. intros w w' H. split; [reflexivity | exact H]. Qed.

Lemma same_outcome_raise {A} (e : exn) : same_outcome (@raise A e) (raise e).
Proof. intros w w' H. split; [reflexivity | exact H]. Qed.

Lemma same_outcome_call {A} (r : exn + A) : same_outcome (call r) (call r).
Proof.
  destruct r; [apply same_outcome_raise | apply same_outcome_ret].
Qed.

Lemma same_outcome_bind {A B} (c1 c2 : M A) (k1 k2 : A -> M B) :
  same_outcome c1 c2 ->
  (forall a, same_outcome (k1 a) (k2 a)) ->
  same_outcome (bind c1 k1) (bind c2 k2).
Proof.
  intros Hc Hk w w' Hw. unfold bind.
  destruct (Hc w w' Hw) as [Hr Hs].
  destruct (c1 w) as [[a | e] v], (c2 w') as [[a' | e'] v'];
    cbn [fst snd] in *; try discriminate.
  - injection Hr as <-. exact (Hk a v v' Hs).
  - injection Hr as <-. split; [reflexivity | exact Hs].
Qed.

Lemma same_outcome_try_except {A} (catches : exn -> bool) (c1 c2 : M A)
  (h1 h2 : exn -> M A) :
  same_outcome c1 c2 ->
  (forall e, same_outcome (h1 e) (h2 e)) ->
  same_outcome (try_except catches c1 h1) (try_except catches c2 h2).
Proof.
  intros Hc Hh w w' Hw. unfold try_except.
  destruct (Hc w w' Hw) as [Hr Hs].
  destruct (c1 w) as [[a | e] v], (c2 w') as [[a' | e'] v'];
    cbn [fst snd] in *; try discriminate.
  - injection Hr as <-. split; [reflexivity | exact Hs].
  - injection Hr as <-. destruct (catches e).
    + exact (Hh e v v' Hs).
    + split; [reflexivity | exact Hs].
Qed.

(** Logging and the record of calls do not touch the artifacts, so any
    two of them agree. *)
Lemma same_outcome_log lv1 msg1 lv2 msg2 :
  same_outcome (logger_log lv1 msg1) (logger_log lv2 msg2).
Proof. intros w w' H. split; [reflexivity | exact H]. Qed.

Lemma same_outcome_record_event ev1 ev2 :
  same_outcome (record_event ev1) (record_event ev2).
Proof. intros w w' H. split; [reflexivity | exact H]. Qed.

Lemma same_outcome_print (line : string) : same_outcome (print line) (print line).
Proof.
  intros w w' [Hfs Hout]. split; [reflexivity |].
  split; cbn; congruence.
Qed.

Lemma same_outcome_get_fs : same_outcome get_fs get_fs.
Proof.
  intros w w' [Hfs Hout]. split; [cbn; congruence | split; assumption].
Qed.

Lemma same_outcome_set_fs (fs : node) : same_outcome (set_fs fs) (set_fs fs).
Proof.
  intros w w' [Hfs Hout]. split; [reflexivity | split; cbn; congruence].
Qed.

Section Workflow.
Context {L : Libs}.
Local Open Scope monad_scope.

Ltac unfold_monad :=
  lazy beta iota zeta delta
    [try_except bind ret raise call record_event logger_info
     logger_warning logger_error logger_log print get_fs set_fs exit
     w_fs w_log w_stdout w_trace];
  cbn [fst snd].

Ltac case_outcome :=
  match goal with
  | |- context [match ?x with inl _ => _ | inr _ => _ end] =>
      destruct x eqn:?
  | |- context [match ?x with Some _ => _ | None => _ end] =>
      destruct x eqn:?
  | |- context [if isinstance_Exception ?x then _ else _] =>
      destruct (isinstance_Exception x) eqn:?
  end;
  cbn [fst snd w_fs w_log w_stdout w_trace].

(** The banner is none of the other lines the script logs. *)
Ltac not_banner :=
  unfold success_banner; cbn; intros Hin;
  repeat (destruct Hin as [Hin | Hin]; [discriminate Hin |]);
  exact Hin.

Ltac flatten_lists := repeat rewrite <- app_assoc; cbn [app].

Lemma print_usage_instructions_run (p : path) (w : world) :
  print_usage_instructions p w
  = (Return tt, mkWorld (w_fs w) (w_log w) (w_stdout w ++ usage_lines p) (w_trace w)).
Proof.
  destruct w as [fs lg out tr].
  unfold print_usage_instructions, usage_lines. unfold_monad.
  flatten_lists. reflexivity.
Qed.

Lemma report_success_run (p : path) (w : world) :
  report_success p w
  = (Return tt,
     mkWorld (w_fs w)
       (w_log w ++ [success_banner;
                    (INFO, "Model saved to: " +++ str_path p);
                    (INFO, "Model size: " +++ repr_hundredths (get_dir_size p (w_fs w)) +++ " MB")])
       (w_stdout w ++ usage_lines p)
       (w_trace w)).
Proof.
  destruct w as [fs lg out tr].
  pose proof (print_usage_instructions_run p) as Hp.
  unfold report_success.
  lazy beta iota zeta delta
    [bind logger_info logger_log get_fs fst snd w_fs w_log w_stdout w_trace].
  rewrite Hp. cbn [fst snd w_fs w_log w_stdout w_trace].
  flatten_lists. reflexivity.
Qed.

(** [export_lfm2_to_onnx] is its stretches in sequence. *)
Lemma export_lfm2_to_onnx_phases (model_id output_dir : string) (w : world) :
  export_lfm2_to_onnx model_id output_dir w
  = (logger_info ("Starting LFM2-350M ONNX export from " +++ model_id) ;;
     mkdir (Path output_dir) ;;
     try_except isinstance_Exception
       (tokenizer <- acquire_and_convert model_id (Path output_dir) ;;
        logger_info "Verifying ONNX export..." ;;
        verify_export (Path output_dir) tokenizer ;;
        report_success (Path output_dir))
       export_failed) w.
Proof.
  destruct w as [fs lg out tr].
  unfold export_lfm2_to_onnx, acquire_and_convert, acquire_tokenizer,
    load_pytorch_model, convert_to_onnx, report_success, export_failed,
    save_pretrained, mkdir, resolve_pad_token, success_banner.
  unfold_monad.
  repeat (case_outcome; try reflexivity).
Qed.

(** The run equation of [export_lfm2_to_onnx]: which stretch ends the
    run, and in which world. *)
Lemma export_lfm2_to_onnx_run (model_id output_dir : string) (w : world) :
  export_lfm2_to_onnx model_id output_dir w
  = match mkdir_parents_exist_ok (Path output_dir) (w_fs w) with
    | inl e =>
        (Raise e,
         mkWorld (w_fs w)
           (w_log w ++ [(INFO, "Starting LFM2-350M ONNX export from " +++ model_id)])
           (w_stdout w) (w_trace w ++ [EvMkdir (Path output_dir)]))
    | inr fs1 =>
        match acquire_and_convert model_id (Path output_dir)
                (try_start model_id output_dir fs1 w) with
        | (Raise e, w1) =>
            if isinstance_Exception e
            then (Raise e, snd (logger_error ("Export failed: " +++ exn_str e) w1))
            else (Raise e, w1)
        | (Return tokenizer, w1) =>
            match verify_export (Path output_dir) tokenizer
                    (snd (logger_info "Verifying ONNX export..." w1)) with
            | (Raise e, w2) =>
                if isinstance_Exception e
                then (Raise e, snd (logger_error ("Export failed: " +++ exn_str e) w2))
                else (Raise e, w2)
            | (Return _, w2) => report_success (Path output_dir) w2
            end
        end
    end.
Proof.
  rewrite export_lfm2_to_onnx_phases.
  pose proof (report_success_run (Path output_dir)) as Hrep.
  destruct w as [fs lg out tr].
  unfold try_start, mkdir, export_failed.
  lazy beta iota zeta delta
    [try_except bind ret raise call record_event logger_info logger_error
     logger_log get_fs set_fs fst snd w_fs w_log w_stdout w_trace].
  destruct (mkdir_parents_exist_ok (Path output_dir) fs) as [e | fs1];
    [reflexivity |].
  match goal with
  | |- context [acquire_and_convert ?a ?b ?c] =>
      destruct (acquire_and_convert a b c) as [[tok | e] w1]
  end.
  - match goal with
    | |- context [verify_export ?a ?b ?c] =>
        destruct (verify_export a b c) as [[[] | e] w2]
    end.
    + rewrite Hrep. reflexivity.
    + destruct (isinstance_Exception e); reflexivity.
  - destruct (isinstance_Exception e); reflexivity.
Qed.

(** [verify_export] touches neither the tree nor stdout, logs no banner,
    makes the reload and then only verification calls, and lets through
    nothing that is an [Exception]. *)
Lemma verify_export_frame (p : path) (t : tokenizer) (w : world) :
  exists r entries evs,
    verify_export p t w
    = (r, mkWorld (w_fs w) (w_log w ++ entries) (w_stdout w)
            (w_trace w ++ EvOrtFromPretrained p :: evs))
    /\ ~ In success_banner entries
    /\ forallb is_verify_event evs = true
    /\ match r with
       | Return _ => True
       | Raise e => isinstance_Exception e = false
       end.
Proof.
  destruct w as [fs lg out tr].
  unfold verify_export, verify_export_body. unfold_monad.
  repeat case_outcome;
    first [ eexists _, _, _; split; [flatten_lists; reflexivity |]
          | eexists _, [], _; split; [rewrite app_nil_r; flatten_lists; reflexivity |] ];
    (split; [not_banner |]); (split; [reflexivity |]);
    first [exact I | assumption].
Qed.

(** What the stretch before verification leaves behind, by the outcome of
    the tokenizer load: the calls made, the tokenizer handed to
    [save_pretrained], and the files in the output directory. *)
Lemma acquire_and_convert_cases (model_id : string) (p : path) (w : world) :
  is_dir p (w_fs w) ->
  forall r w1,
    acquire_and_convert model_id p w = (r, w1) ->
    match AutoTokenizer_from_pretrained model_id with
    | inl e =>
        r = Raise e /\ w_fs w1 = w_fs w
        /\ w_trace w1 = w_trace w ++ [EvTokenizerFromPretrained model_id]
    | inr tok =>
        let t := resolve_pad_token tok in
        exists rest,
          w_trace w1
          = w_trace w ++ [EvTokenizerFromPretrained model_id;
                          EvTokenizerSavePretrained t p] ++ rest
          /\ saved_tokenizers rest = []
          /\ is_dir p (w_fs w1)
          /\ (snd (tokenizer_save_pretrained t) = None ->
              files_present p (fst (tokenizer_save_pretrained t)) (w_fs w1))
          /\ (rest <> [] -> snd (tokenizer_save_pretrained t) = None)
          /\ (forall tk, r = Return tk ->
                tk = t
                /\ snd (tokenizer_save_pretrained t) = None
                /\ exists om,
                     ORTModelForCausalLM_export model_id provider = inr om
                     /\ snd (onnx_save_pretrained om) = None
                     /\ files_present p (fst (onnx_save_pretrained om)) (w_fs w1))
    end.
Proof.
  destruct w as [fs lg out tr]. cbn [w_fs w_trace]. intros Hd r w1.
  unfold acquire_and_convert, acquire_tokenizer, load_pytorch_model,
    convert_to_onnx, save_pretrained.
  unfold_monad.
  destruct (AutoTokenizer_from_pretrained model_id) as [e | tok].
  { intros [= <- <-]. cbn. auto. }
  cbn zeta. set (t := resolve_pad_token tok).
  pose proof (write_files_spec p (fst (tokenizer_save_pretrained t)) fs Hd)
    as (Hd1 & Htok & _).
  destruct (snd (tokenizer_save_pretrained t)) as [e |] eqn:Hsave.
  { intros [= <- <-]. exists []. cbn [w_fs w_trace].
    repeat split; intros; try assumption; try congruence.
    rewrite app_nil_r. flatten_lists. reflexivity. }
  destruct (AutoModelForCausalLM_from_pretrained model_id model_load_kwargs)
    as [e | m].
  { intros [= <- <-]. eexists. cbn [w_fs w_trace].
    split; [flatten_lists; reflexivity |].
    repeat split; intros; try assumption; try congruence. }
  destruct (ORTModelForCausalLM_export model_id provider) as [e | om] eqn:Hexp.
  { intros [= <- <-]. eexists. cbn [w_fs w_trace].
    split; [flatten_lists; reflexivity |].
    repeat split; intros; try assumption; try congruence. }
  pose proof (write_files_spec p (fst (onnx_save_pretrained om)) _ Hd1)
    as (Hd2 & Honnx & Hkeep).
  assert (files_present p (fst (tokenizer_save_pretrained t))
            (write_files p (fst (onnx_save_pretrained om))
               (write_files p (fst (tokenizer_save_pretrained t)) fs))) as Htok2.
  { apply files_present_write_files. exact Hd. }
  destruct (snd (onnx_save_pretrained om)) as [e |] eqn:Hosave.
  { intros [= <- <-]. eexists. cbn [w_fs w_trace].
    split; [flatten_lists; reflexivity |].
    repeat split; intros; try assumption; try congruence. }
  intros [= <- <-]. eexists. cbn [w_fs w_trace].
  split; [flatten_lists; reflexivity |].
  repeat split; intros; try assumption; try congruence.
  exists om. repeat split; assumption.
Qed.

(** The stretch before verification prints nothing and logs only
    progress lines, never the banner. *)
Lemma acquire_and_convert_frame (model_id : string) (p : path) (w : world) :
  exists r fs' entries tr',
    acquire_and_convert model_id p w
    = (r, mkWorld fs' (w_log w ++ entries) (w_stdout w) tr')
    /\ ~ In success_banner entries
    /\ Forall (fun entry => fst entry = INFO) entries.
Proof.
  destruct w as [fs lg out tr].
  unfold acquire_and_convert, acquire_tokenizer, load_pytorch_model,
    convert_to_onnx, save_pretrained.
  unfold_monad.
  repeat case_outcome;
    (eexists _, _, _, _; split; [flatten_lists; reflexivity |]);
    (split; [not_banner | repeat constructor]).
Qed.

(** After the stretch before verification, the rest of the run leaves
    the tree alone and makes only the verification calls. *)
Lemma export_tail (model_id output_dir : string) (w : world) fs1 r1 w1 :
  mkdir_parents_exist_ok (Path output_dir) (w_fs w) = inr fs1 ->
  acquire_and_convert model_id (Path output_dir)
    (try_start model_id output_dir fs1 w) = (r1, w1) ->
  exists r' w' tail,
    export_lfm2_to_onnx model_id output_dir w = (r', w')
    /\ w_fs w' = w_fs w1
    /\ w_trace w' = w_trace w1 ++ tail
    /\ forallb (fun ev => negb (is_model_event ev)) tail = true
    /\ saved_tokenizers tail = []
    /\ match r1 with
       | Raise e => r' = Raise e /\ tail = []
       | Return _ => In (EvOrtFromPretrained (Path output_dir)) tail
       end.
Proof.
  intros Hmk Hac. rewrite export_lfm2_to_onnx_run, Hmk, Hac.
  destruct r1 as [tk | e].
  - destruct (verify_export_frame (Path output_dir) tk
                (snd (logger_info "Verifying ONNX export..." w1)))
      as (r & entries & evs & Hv & _ & Hevs & Hr).
    rewrite Hv. destruct (verify_events_not_saves evs Hevs) as [Hs Hm].
    assert (In (EvOrtFromPretrained (Path output_dir))
              (EvOrtFromPretrained (Path output_dir) :: evs)) as Hin
      by (left; reflexivity).
    destruct r as [[] | e].
    + rewrite report_success_run. eexists _, _, _.
      split; [reflexivity |]. cbn. repeat split; auto.
    + rewrite Hr. eexists _, _, _.
      split; [reflexivity |]. cbn. repeat split; auto.
  - destruct (isinstance_Exception e); eexists _, _, [];
      (split; [reflexivity |]); cbn; rewrite app_nil_r; repeat split; auto.
Qed.

Lemma try_start_is_dir (model_id output_dir : string) (w : world) fs1 :
  mkdir_parents_exist_ok (Path output_dir) (w_fs w) = inr fs1 ->
  is_dir (Path output_dir) (w_fs (try_start model_id output_dir fs1 w)).
Proof.
  intros Hmk. exact (mkdir_parents_exist_ok_is_dir _ _ _ Hmk).
Qed.

(** The one tokenizer a run hands to [save_pretrained] is the loaded one
    after the pad-token step. *)
Lemma saved_tokenizer_of_run (model_id output_dir : string) (w : world) fs1 tok :
  mkdir_parents_exist_ok (Path output_dir) (w_fs w) = inr fs1 ->
  AutoTokenizer_from_pretrained model_id = inr tok ->
  saved_tokenizers (w_trace (snd (export_lfm2_to_onnx model_id output_dir w)))
  = saved_tokenizers (w_trace w) ++ [resolve_pad_token tok].
Proof.
  intros Hmk Htok.
  destruct (acquire_and_convert model_id (Path output_dir)
              (try_start model_id output_dir fs1 w)) as [r1 w1] eqn:Hac.
  pose proof (acquire_and_convert_cases _ _ _
                (try_start_is_dir model_id output_dir w fs1 Hmk) _ _ Hac) as Hc.
  rewrite Htok in Hc. cbn zeta in Hc.
  destruct Hc as (rest & Htr & Hrest & _).
  destruct (export_tail model_id output_dir w fs1 r1 w1 Hmk Hac)
    as (r' & w' & tail & Hrun & _ & Htr' & _ & Htail & _).
  rewrite Hrun. cbn [snd]. rewrite Htr', Htr. cbn [try_start w_trace].
  rewrite !saved_tokenizers_app, Hrest, Htail. cbn.
  rewrite !app_nil_r. reflexivity.
Qed.

(** C1, as amended: when the output directory can be created and the
    loaded tokenizer has no pad token, the tokenizer handed to
    [save_pretrained] (the one call that persists it) has its pad token set
    to the loaded end-of-sequence token, whatever that is; the persisted pad
    token is therefore defined exactly when the tokenizer defines an
    end-of-sequence token. *)
Theorem pad_token_set_to_eos_before_save
  (model_id output_dir : string) (w : world) fs1 tok :
  mkdir_parents_exist_ok (Path output_dir) (w_fs w) = inr fs1 ->
  AutoTokenizer_from_pretrained model_id = inr tok ->
  pad_token tok = None ->
  exists t,
    saved_tokenizers (w_trace (snd (export_lfm2_to_onnx model_id output_dir w)))
    = saved_tokenizers (w_trace w) ++ [t]
    /\ pad_token t = eos_token tok
    /\ eos_token t = eos_token tok
    /\ (pad_token t <> None <-> eos_token tok <> None).
Proof.
  intros Hmk Htok Hpad. exists (resolve_pad_token tok).
  split; [exact (saved_tokenizer_of_run _ _ _ _ _ Hmk Htok) |].
  unfold resolve_pad_token. rewrite Hpad. cbn. tauto.
Qed.

(** C9: the pad-token step changes nothing but a missing pad token.  A
    tokenizer loaded with a pad token is handed to [save_pretrained]
    exactly as loaded, and in every case the end-of-sequence token, the
    unknown-token id, the vocabulary and the other attributes are the
    loaded ones. *)
Theorem defined_pad_token_saved_as_loaded
  (model_id output_dir : string) (w : world) fs1 tok :
  mkdir_parents_exist_ok (Path output_dir) (w_fs w) = inr fs1 ->
  AutoTokenizer_from_pretrained model_id = inr tok ->
  exists t,
    saved_tokenizers (w_trace (snd (export_lfm2_to_onnx model_id output_dir w)))
    = saved_tokenizers (w_trace w) ++ [t]
    /\ (pad_token tok <> None -> t = tok)
    /\ (t <> tok -> pad_token tok = None)
    /\ eos_token t = eos_token tok
    /\ unk_token_id t = unk_token_id tok
    /\ vocab t = vocab tok
    /\ other_attributes t = other_attributes tok.
Proof.
  intros Hmk Htok. exists (resolve_pad_token tok).
  split; [exact (saved_tokenizer_of_run _ _ _ _ _ Hmk Htok) |].
  unfold resolve_pad_token.
  destruct (pad_token tok) as [pad |]; cbn; repeat split; congruence.
Qed.

(** C7: in every run, whatever call begins model loading or ONNX
    conversion ([AutoModelForCausalLM.from_pretrained], the ONNX export,
    the ONNX save) comes after a tokenizer [save_pretrained] into the
    output directory that returned normally, and the files that call wrote
    are regular files of the output directory when the run ends, also when
    the run ends by an exception of the conversion. *)
Theorem tokenizer_persisted_before_model_conversion
  (model_id output_dir : string) (w : world) :
  exists evs,
    w_trace (snd (export_lfm2_to_onnx model_id output_dir w)) = w_trace w ++ evs
    /\ forall pre ev post,
         evs = pre ++ ev :: post ->
         is_model_event ev = true ->
         exists t,
           In (EvTokenizerSavePretrained t (Path output_dir)) pre
           /\ snd (tokenizer_save_pretrained t) = None
           /\ files_present (Path output_dir) (fst (tokenizer_save_pretrained t))
                (w_fs (snd (export_lfm2_to_onnx model_id output_dir w))).
Proof.
  destruct (mkdir_parents_exist_ok (Path output_dir) (w_fs w)) as [e | fs1] eqn:Hmk.
  { rewrite export_lfm2_to_onnx_run, Hmk. cbn [snd w_trace w_fs].
    eexists. split; [reflexivity |].
    intros pre ev post Heq Hev.
    exfalso. eapply no_model_event; [| exact Heq | exact Hev]. reflexivity. }
  destruct (acquire_and_convert model_id (Path output_dir)
              (try_start model_id output_dir fs1 w)) as [r1 w1] eqn:Hac.
  pose proof (acquire_and_convert_cases _ _ _
                (try_start_is_dir model_id output_dir w fs1 Hmk) _ _ Hac) as Hc.
  destruct (export_tail model_id output_dir w fs1 r1 w1 Hmk Hac)
    as (r' & w' & tail & Hrun & Hfs & Htr' & Htail & _ & Hr1).
  rewrite Hrun. cbn [snd]. rewrite Htr', Hfs.
  destruct (AutoTokenizer_from_pretrained model_id) as [e | tok].
  { destruct Hc as (-> & _ & Htr). destruct Hr1 as [_ ->].
    rewrite Htr. cbn [try_start w_trace]. rewrite app_nil_r.
    eexists. split; [rewrite <- app_assoc; reflexivity |].
    cbn [app]. intros pre ev post Heq Hev.
    exfalso. eapply no_model_event; [| exact Heq | exact Hev]. reflexivity. }
  cbn zeta in Hc. destruct Hc as (rest & Htr & _ & _ & Hfiles & Hsaved & Hret).
  rewrite Htr. cbn [try_start w_trace].
  exists ([EvMkdir (Path output_dir); EvTokenizerFromPretrained model_id;
           EvTokenizerSavePretrained (resolve_pad_token tok) (Path output_dir)]
            ++ rest ++ tail).
  split; [repeat rewrite <- app_assoc; reflexivity |].
  intros pre ev post Heq Hev.
  destruct (model_event_after_prefix _ _ _ _ _ Heq eq_refl Hev)
    as (mid & -> & Hmid).
  assert (snd (tokenizer_save_pretrained (resolve_pad_token tok)) = None) as Hok.
  { destruct rest as [| x rest]; [| apply Hsaved; discriminate].
    destruct r1 as [tk | e1].
    - destruct (Hret tk eq_refl) as (_ & Hok & _). exact Hok.
    - destruct Hr1 as [_ ->]. destruct mid; discriminate. }
  exists (resolve_pad_token tok). repeat split.
  - apply in_or_app. left. right. right. left. reflexivity.
  - exact Hok.
  - exact (Hfiles Hok).
Qed.

(** C8: when [export_lfm2_to_onnx] returns without raising, the tokenizer
    and the converted model were both loaded and saved, and every file the
    two [save_pretrained] calls wrote is a regular file of the output
    directory. *)
Theorem successful_run_leaves_both_artifacts
  (model_id output_dir : string) (w w' : world) :
  export_lfm2_to_onnx model_id output_dir w = (Return tt, w') ->
  exists tok om,
    AutoTokenizer_from_pretrained model_id = inr tok
    /\ ORTModelForCausalLM_export model_id provider = inr om
    /\ snd (tokenizer_save_pretrained (resolve_pad_token tok)) = None
    /\ snd (onnx_save_pretrained om) = None
    /\ is_dir (Path output_dir) (w_fs w')
    /\ files_present (Path output_dir)
         (fst (tokenizer_save_pretrained (resolve_pad_token tok))) (w_fs w')
    /\ files_present (Path output_dir) (fst (onnx_save_pretrained om)) (w_fs w').
Proof.
  intros Hrun.
  destruct (mkdir_parents_exist_ok (Path output_dir) (w_fs w)) as [e | fs1] eqn:Hmk.
  { rewrite export_lfm2_to_onnx_run, Hmk in Hrun. discriminate. }
  destruct (acquire_and_convert model_id (Path output_dir)
              (try_start model_id output_dir fs1 w)) as [r1 w1] eqn:Hac.
  pose proof (acquire_and_convert_cases _ _ _
                (try_start_is_dir model_id output_dir w fs1 Hmk) _ _ Hac) as Hc.
  destruct (export_tail model_id output_dir w fs1 r1 w1 Hmk Hac)
    as (r' & w2 & tail & Hrun' & Hfs & _ & _ & _ & Hr1).
  rewrite Hrun in Hrun'. injection Hrun' as <- <-.
  destruct r1 as [tk | e1]; [| destruct Hr1 as [Hr _]; discriminate].
  destruct (AutoTokenizer_from_pretrained model_id) as [e | tok].
  { destruct Hc as (Hc & _). discriminate. }
  cbn zeta in Hc. destruct Hc as (rest & _ & _ & Hd & Hfiles & _ & Hret).
  destruct (Hret tk eq_refl) as (_ & Hok & om & Hexp & Hosave & Hofiles).
  exists tok, om. rewrite Hfs. repeat split; auto.
Qed.

(** C3, as amended: an exception raised by tokenizer acquisition, model
    acquisition or conversion leaves [export_lfm2_to_onnx] as the same
    exception; nothing is printed and the success banner is not logged.
    The log grows by the lines logged up to the raise, all of level INFO,
    and then by what the handler logs: when the exception is an instance of
    [Exception], the one line [Export failed: ...] at level ERROR; when it
    is not (KeyboardInterrupt, SystemExit), nothing, so that such an
    exception propagates with no entry above level INFO in the log. *)
Theorem acquisition_failure_propagates
  (model_id output_dir : string) (w : world) fs1 e w1 :
  mkdir_parents_exist_ok (Path output_dir) (w_fs w) = inr fs1 ->
  acquire_and_convert model_id (Path output_dir)
    (try_start model_id output_dir fs1 w) = (Raise e, w1) ->
  exists entries,
    export_lfm2_to_onnx model_id output_dir w
    = (Raise e,
       mkWorld (w_fs w1)
         (w_log w ++ entries ++
            (if isinstance_Exception e
             then [(ERROR, "Export failed: " +++ exn_str e)] else []))
         (w_stdout w) (w_trace w1))
    /\ ~ In success_banner
           (entries ++ (if isinstance_Exception e
                        then [(ERROR, "Export failed: " +++ exn_str e)] else []))
    /\ w_log w1 = w_log w ++ entries
    /\ Forall (fun entry => fst entry = INFO) entries
    /\ (isinstance_Exception e = false ->
        forall lv msg,
          In (lv, msg)
            (entries ++ (if isinstance_Exception e
                         then [(ERROR, "Export failed: " +++ exn_str e)] else [])) ->
          lv = INFO).
Proof.
  intros Hmk Hac.
  destruct (acquire_and_convert_frame model_id (Path output_dir)
              (try_start model_id output_dir fs1 w))
    as (r & fs' & entries & tr' & Hfr & Hban & Hinfo).
  rewrite Hac in Hfr. injection Hfr as <- ->.
  exists ((INFO, "Starting LFM2-350M ONNX export from " +++ model_id) :: entries).
  rewrite export_lfm2_to_onnx_run, Hmk, Hac.
  cbn [try_start w_log w_stdout w_fs w_trace].
  assert (Forall (fun entry : level * string => fst entry = INFO)
            ((INFO, "Starting LFM2-350M ONNX export from " +++ model_id) :: entries))
    as Hall by (constructor; [reflexivity | exact Hinfo]).
  split; [| split; [| split; [| split]]].
  - destruct (isinstance_Exception e); unfold logger_error, logger_log;
      cbn [snd w_log w_stdout w_fs w_trace]; repeat rewrite <- app_assoc;
      cbn [app]; rewrite ?app_nil_r; reflexivity.
  - intros Hin. apply in_app_or in Hin as [[Hin | Hin] | Hin].
    + discriminate Hin.
    + exact (Hban Hin).
    + destruct (isinstance_Exception e); [| exact Hin].
      destruct Hin as [Hin | []]. discriminate Hin.
  - rewrite <- app_assoc. reflexivity.
  - exact Hall.
  - intros Hno lv msg Hin. rewrite Hno, app_nil_r in Hin.
    rewrite Forall_forall in Hall. exact (Hall _ Hin).
Qed.


(** C4: [main] hands [export_lfm2_to_onnx] the model id and the output
    directory of the parsed namespace and nothing else.  Two invocations
    whose namespaces agree on these two fields, whatever their [verify]
    fields, run identically, and a run that returns has made the reload
    call of the verification, whatever the flag. *)
Theorem verify_flag_is_never_consulted
  (argv1 argv2 : list string) (args1 args2 : Namespace) (w : world) :
  parse_args parser_arguments argv1 = inr args1 ->
  parse_args parser_arguments argv2 = inr args2 ->
  ns_model_id args1 = ns_model_id args2 ->
  ns_output_dir args1 = ns_output_dir args2 ->
  main argv1 w = main argv2 w
  /\ main argv1 w
     = export_lfm2_to_onnx (ns_model_id args1) (ns_output_dir args1)
         (snd (record_event EvParseArgs w))
  /\ forall w',
       main argv1 w = (Return tt, w') ->
       exists evs,
         w_trace w' = w_trace w ++ evs
         /\ In (EvOrtFromPretrained (Path (ns_output_dir args1))) evs.
Proof.
  intros Hp1 Hp2 Hid Hdir.
  assert (forall argv args,
             parse_args parser_arguments argv = inr args ->
             main argv w
             = export_lfm2_to_onnx (ns_model_id args) (ns_output_dir args)
                 (snd (record_event EvParseArgs w))) as Hmain.
  { intros argv args Hp. unfold main, main_with, bind, call_printing.
    rewrite Hp. reflexivity. }
  rewrite (Hmain _ _ Hp1), (Hmain _ _ Hp2), Hid, Hdir.
  repeat split. rewrite <- Hid, <- Hdir.
  set (w0 := snd (record_event EvParseArgs w)).
  intros w' Hrun.
  destruct (mkdir_parents_exist_ok (Path (ns_output_dir args1)) (w_fs w0))
    as [e | fs1] eqn:Hmk.
  { rewrite export_lfm2_to_onnx_run, Hmk in Hrun. discriminate. }
  destruct (acquire_and_convert (ns_model_id args1) (Path (ns_output_dir args1))
              (try_start (ns_model_id args1) (ns_output_dir args1) fs1 w0))
    as [r1 w1] eqn:Hac.
  pose proof (acquire_and_convert_cases _ _ _
                (try_start_is_dir _ _ w0 fs1 Hmk) _ _ Hac) as Hc.
  destruct (export_tail _ _ w0 fs1 r1 w1 Hmk Hac)
    as (r' & w2 & tail & Hrun' & _ & Htr & _ & _ & Hr1).
  rewrite Hrun in Hrun'. injection Hrun' as <- <-.
  destruct r1 as [tk | e1]; [| destruct Hr1 as [Hr _]; discriminate].
  destruct (AutoTokenizer_from_pretrained (ns_model_id args1)) as [e | tok].
  { destruct Hc as (Hc & _). discriminate. }
  cbn zeta in Hc. destruct Hc as (rest & Htr1 & _).
  rewrite Htr, Htr1. subst w0. cbn [try_start record_event snd w_trace].
  eexists. split; [repeat rewrite <- app_assoc; reflexivity |].
  cbn [app]. do 4 right. apply in_or_app. right. exact Hr1.
Qed.

(** C6, as amended: when one of the guarded imports raises (the earlier
    ones having succeeded), the process has made import calls only, so
    logging is not configured, no argument is parsed, nothing is logged and
    the tree is untouched.  If the exception is an [ImportError], as the
    one of a library that is not installed, the process prints the two
    lines of the import guard and exits with code 1.  If it is of another
    class the guard does not catch it: it leaves the module body with
    nothing printed. *)
Theorem missing_library_exits_before_workflow
  (argv : list string) (w : world) (e : exn) :
  first_import_error required_modules = Some e ->
  exists evs,
    (if isinstance_ImportError e
     then run_script argv w
          = (ExitCode 1,
             mkWorld (w_fs w) (w_log w)
               (w_stdout w ++
                  ["Missing required packages: " +++ exn_str e;
                   "Install with: pip install transformers optimum[onnxruntime] torch"])
               (w_trace w ++ evs))
     else script argv w
          = (Raise e,
             mkWorld (w_fs w) (w_log w) (w_stdout w) (w_trace w ++ evs)))
    /\ Forall (fun ev => exists m, ev = EvImport m) evs.
Proof.
  destruct w as [fs lg out tr].
  unfold required_modules, run_script, script, import_.
  cbn [first_import_error]. intros Hfirst.
  lazy beta iota zeta delta
    [try_except bind ret raise record_event print exit
     w_fs w_log w_stdout w_trace].
  destruct (import_module "transformers") as [e1 |];
    [injection Hfirst as ->; destruct (isinstance_ImportError e);
     cbn [exn_class];
     (eexists; split; [repeat rewrite <- app_assoc; reflexivity |
      cbn [app]; repeat (constructor; [eexists; reflexivity |]); constructor]) |].
  destruct (import_module "optimum.onnxruntime") as [e2 |];
    [injection Hfirst as ->; destruct (isinstance_ImportError e);
     cbn [exn_class];
     (eexists; split; [repeat rewrite <- app_assoc; reflexivity |
      cbn [app]; repeat (constructor; [eexists; reflexivity |]); constructor]) |].
  destruct (import_module "torch") as [e3 |]; [| discriminate].
  injection Hfirst as ->. destruct (isinstance_ImportError e);
    cbn [exn_class];
    (eexists; split; [repeat rewrite <- app_assoc; reflexivity |
     cbn [app]; repeat (constructor; [eexists; reflexivity |]); constructor]).
Qed.

(** One step of a proof that two computations with the same shape
    agree on the artifacts. *)
Ltac same_outcome_step :=
  cbv zeta;
  lazymatch goal with
  | |- same_outcome (bind _ _) (bind _ _) =>
      apply same_outcome_bind; [| intros ?]
  | |- same_outcome (try_except _ _ _) (try_except _ _ _) =>
      apply same_outcome_try_except; [| intros ?]
  | |- same_outcome (ret _) (ret _) => apply same_outcome_ret
  | |- same_outcome (raise _) (raise _) => apply same_outcome_raise
  | |- same_outcome (call _) (call _) => apply same_outcome_call
  | |- same_outcome (logger_log _ _) (logger_log _ _) => apply same_outcome_log
  | |- same_outcome (record_event _) (record_event _) =>
      apply same_outcome_record_event
  | |- same_outcome (print _) (print _) => apply same_outcome_print
  | |- same_outcome get_fs get_fs => apply same_outcome_get_fs
  | |- same_outcome (set_fs _) (set_fs _) => apply same_outcome_set_fs
  end.

(** A log line, the record of the call and a load that returns can be
    dropped in front of a computation that does not use the model. *)
Lemma same_outcome_skip_load {A} (model_id msg : string) (m : torch_model)
  (k1 : torch_model -> M A) (k2 : M A) :
  AutoModelForCausalLM_from_pretrained model_id model_load_kwargs = inr m ->
  same_outcome (k1 m) k2 ->
  same_outcome
    (logger_info msg ;;
     record_event (EvModelFromPretrained model_id model_load_kwargs) ;;
     model <- call (AutoModelForCausalLM_from_pretrained model_id model_load_kwargs) ;;
     k1 model)
    k2.
Proof.
  intros Hload Hk w w' Hw. rewrite Hload.
  unfold bind, logger_info, logger_log, record_event, call, ret.
  cbn [fst snd]. apply Hk. exact Hw.
Qed.

Lemma same_outcome_save_pretrained (p : path) outcome :
  same_outcome (save_pretrained p outcome) (save_pretrained p outcome).
Proof.
  unfold save_pretrained. destruct (snd outcome); repeat same_outcome_step.
Qed.

Lemma same_outcome_verify_export (p : path) (t : tokenizer) :
  same_outcome (verify_export p t) (verify_export p t).
Proof.
  unfold verify_export, verify_export_body, logger_info, logger_warning.
  repeat same_outcome_step.
Qed.

Lemma same_outcome_print_usage_instructions (p : path) :
  same_outcome (print_usage_instructions p) (print_usage_instructions p).
Proof.
  unfold print_usage_instructions. repeat same_outcome_step.
Qed.

(** C10, as amended: the loaded PyTorch model is not used by anything
    that follows, so when the load returns (whatever model it returns)
    the workflow with the load step removed ends the same way, with the
    same tree and the same standard output, as the workflow with it. *)
Theorem unused_model_load_can_be_dropped
  (model_id output_dir : string) (m : torch_model) (w : world) :
  AutoModelForCausalLM_from_pretrained model_id model_load_kwargs = inr m ->
  fst (export_lfm2_to_onnx model_id output_dir w)
  = fst (export_lfm2_to_onnx_without_load model_id output_dir w)
  /\ w_fs (snd (export_lfm2_to_onnx model_id output_dir w))
     = w_fs (snd (export_lfm2_to_onnx_without_load model_id output_dir w))
  /\ w_stdout (snd (export_lfm2_to_onnx model_id output_dir w))
     = w_stdout (snd (export_lfm2_to_onnx_without_load model_id output_dir w)).
Proof.
  intros Hload.
  assert (same_outcome (export_lfm2_to_onnx model_id output_dir)
            (export_lfm2_to_onnx_without_load model_id output_dir)) as Hsame.
  { unfold export_lfm2_to_onnx, export_lfm2_to_onnx_without_load, mkdir,
      logger_info, logger_error.
    repeat
      lazymatch goal with
      | |- same_outcome
             (bind (logger_log _ _)
                (fun _ => bind (record_event (EvModelFromPretrained _ _)) _)) _ =>
          apply (same_outcome_skip_load model_id _ m); [exact Hload |]
      | |- same_outcome (save_pretrained _ _) _ =>
          apply same_outcome_save_pretrained
      | |- same_outcome (verify_export _ _) _ =>
          apply same_outcome_verify_export
      | |- same_outcome (print_usage_instructions _) _ =>
          apply same_outcome_print_usage_instructions
      | |- _ => same_outcome_step
      end. }
  destruct (Hsame w w (conj eq_refl eq_refl)) as (Hr & Hfs & Hout).
  auto.
Qed.

End Workflow.

(* ===================================================================== *)
(** * Runs on concrete libraries *)
(* ===================================================================== *)

Lemma pad_token_set_to_eos_before_save_witness :
  exists t,
    saved_tokenizers
      (w_trace (snd (export_lfm2_to_onnx (L := ok_libs) lfm2_id lfm2_dir fresh_world)))
    = saved_tokenizers (w_trace fresh_world) ++ [t]
    /\ pad_token t = eos_token lfm2_tokenizer
    /\ eos_token t = eos_token lfm2_tokenizer
    /\ (pad_token t <> None <-> eos_token lfm2_tokenizer <> None).
Proof.
  eapply (pad_token_set_to_eos_before_save (L := ok_libs) lfm2_id lfm2_dir
            fresh_world _ lfm2_tokenizer); reflexivity.
Defined.

(** C1, as stated, fails: a tokenizer that defines neither a pad token
    nor an end-of-sequence token is saved with its pad token still
    undefined. *)
Lemma pad_token_stays_undefined_without_eos :
  AutoTokenizer_from_pretrained (Libs := bare_tokenizer_libs) lfm2_id
  = inr bare_tokenizer
  /\ pad_token bare_tokenizer = None
  /\ exists t,
       saved_tokenizers
         (w_trace (snd (export_lfm2_to_onnx (L := bare_tokenizer_libs)
                          lfm2_id lfm2_dir fresh_world))) = [t]
       /\ pad_token t = None.
Proof.
  split; [reflexivity |]. split; [reflexivity |].
  exists bare_tokenizer. split; reflexivity.
Qed.

(** Membership in a computed list, by search. *)
Ltac in_list := vm_compute; repeat (try (left; reflexivity); right).

Ltac not_in_list :=
  vm_compute; intros Hin;
  repeat (destruct Hin as [Hin | Hin]; [discriminate Hin |]);
  exact Hin.

Section FailingGeneration.
#[local] Existing Instance failing_generation_libs.


End FailingGeneration.

Section InterruptedGeneration.
#[local] Existing Instance interrupted_generation_libs.


End InterruptedGeneration.

Section UnknownModel.
#[local] Existing Instance unknown_model_libs.

Lemma acquisition_failure_propagates_witness :
  fst (export_lfm2_to_onnx lfm2_id lfm2_dir fresh_world)
  = Raise (mkExn OSError "LiquidAI/LFM2-350M is not a valid model identifier")
  /\ w_log (snd (export_lfm2_to_onnx lfm2_id lfm2_dir
                   fresh_world))
     = [(INFO, "Starting LFM2-350M ONNX export from LiquidAI/LFM2-350M");
        (INFO, "Loading tokenizer...");
        (ERROR, "Export failed: LiquidAI/LFM2-350M is not a valid model identifier")]
  /\ w_stdout (snd (export_lfm2_to_onnx lfm2_id lfm2_dir
                      fresh_world)) = [].
Proof.
  pose (w1 := snd (acquire_and_convert lfm2_id
                     (Path lfm2_dir)
                     (try_start lfm2_id lfm2_dir created_tree fresh_world))).
  assert (mkdir_parents_exist_ok (Path lfm2_dir)
            (w_fs fresh_world) = inr created_tree)
    as H1 by (vm_compute; reflexivity).
  assert (acquire_and_convert lfm2_id
            (Path lfm2_dir) (try_start lfm2_id lfm2_dir created_tree fresh_world)
          = (Raise (mkExn OSError "LiquidAI/LFM2-350M is not a valid model identifier"),
             w1))
    as H2 by (vm_compute; reflexivity).
  destruct (acquisition_failure_propagates
              lfm2_id lfm2_dir fresh_world created_tree _ w1 H1 H2)
    as (entries & Hrun & _).
  assert (fst (export_lfm2_to_onnx lfm2_id lfm2_dir
                 fresh_world)
          = Raise (mkExn OSError "LiquidAI/LFM2-350M is not a valid model identifier"))
    as Hfst by (rewrite Hrun; reflexivity).
  split; [exact Hfst |]. split; vm_compute; reflexivity.
Defined.

End UnknownModel.

Section InterruptedDownload.
#[local] Existing Instance interrupted_download_libs.

(** C3, as stated, fails: a KeyboardInterrupt raised while the tokenizer
    is downloaded leaves [export_lfm2_to_onnx] without the error being
    logged. *)
Lemma keyboard_interrupt_in_acquisition_is_not_logged :
  AutoTokenizer_from_pretrained lfm2_id
  = inl (mkExn KeyboardInterrupt EmptyString)
  /\ fst (export_lfm2_to_onnx lfm2_id lfm2_dir
            fresh_world) = Raise (mkExn KeyboardInterrupt EmptyString)
  /\ w_log (snd (export_lfm2_to_onnx
                   lfm2_id lfm2_dir fresh_world))
     = [(INFO, "Starting LFM2-350M ONNX export from LiquidAI/LFM2-350M");
        (INFO, "Loading tokenizer...")]
  /\ forall msg,
       ~ In (ERROR, msg)
           (w_log (snd (export_lfm2_to_onnx
                          lfm2_id lfm2_dir fresh_world))).
Proof.
  split; [reflexivity |]. split; [vm_compute; reflexivity |].
  split; [vm_compute; reflexivity |].
  intros msg. not_in_list.
Qed.

End InterruptedDownload.

Section AllCallsSucceed.
#[local] Existing Instance ok_libs.

Lemma verify_flag_is_never_consulted_witness :
  ns_verify (mkNamespace lfm2_id lfm2_dir false)
  <> ns_verify (mkNamespace lfm2_id lfm2_dir true)
  /\ main [] fresh_world = main ["--verify"] fresh_world
  /\ exists evs,
       w_trace (snd (main [] fresh_world)) = w_trace fresh_world ++ evs
       /\ In (EvOrtFromPretrained (Path lfm2_dir)) evs.
Proof.
  split; [discriminate |].
  assert (parse_args parser_arguments [] = inr (mkNamespace lfm2_id lfm2_dir false))
    as H1 by reflexivity.
  assert (parse_args parser_arguments ["--verify"]
          = inr (mkNamespace lfm2_id lfm2_dir true))
    as H2 by reflexivity.
  destruct (verify_flag_is_never_consulted [] ["--verify"] _ _
              fresh_world H1 H2 eq_refl eq_refl)
    as (Hsame & _ & Hverify).
  split; [exact Hsame |].
  apply (Hverify (snd (main [] fresh_world))).
  vm_compute. reflexivity.
Defined.

Lemma successful_run_leaves_both_artifacts_witness :
  exists tok om,
    AutoTokenizer_from_pretrained lfm2_id = inr tok
    /\ ORTModelForCausalLM_export lfm2_id provider = inr om
    /\ snd (tokenizer_save_pretrained (resolve_pad_token tok)) = None
    /\ snd (onnx_save_pretrained om) = None
    /\ is_dir (Path lfm2_dir)
         (w_fs (snd (export_lfm2_to_onnx lfm2_id lfm2_dir fresh_world)))
    /\ files_present (Path lfm2_dir)
         (fst (tokenizer_save_pretrained (resolve_pad_token tok)))
         (w_fs (snd (export_lfm2_to_onnx lfm2_id lfm2_dir fresh_world)))
    /\ files_present (Path lfm2_dir) (fst (onnx_save_pretrained om))
         (w_fs (snd (export_lfm2_to_onnx lfm2_id lfm2_dir fresh_world))).
Proof.
  apply (successful_run_leaves_both_artifacts lfm2_id lfm2_dir fresh_world).
  vm_compute. reflexivity.
Defined.

Lemma unused_model_load_can_be_dropped_witness :
  fst (export_lfm2_to_onnx lfm2_id lfm2_dir fresh_world)
  = fst (export_lfm2_to_onnx_without_load lfm2_id lfm2_dir fresh_world)
  /\ w_fs (snd (export_lfm2_to_onnx lfm2_id lfm2_dir fresh_world))
     = w_fs (snd (export_lfm2_to_onnx_without_load lfm2_id lfm2_dir fresh_world))
  /\ w_stdout (snd (export_lfm2_to_onnx lfm2_id lfm2_dir fresh_world))
     = w_stdout (snd (export_lfm2_to_onnx_without_load lfm2_id lfm2_dir fresh_world)).
Proof.
  assert (AutoModelForCausalLM_from_pretrained lfm2_id model_load_kwargs = inr tt)
    as Hload by reflexivity.
  exact (unused_model_load_can_be_dropped lfm2_id lfm2_dir tt fresh_world Hload).
Defined.

End AllCallsSucceed.

Section PaddedTokenizer.
#[local] Existing Instance padded_tokenizer_libs.

Lemma defined_pad_token_saved_as_loaded_witness :
  pad_token padded_tokenizer = Some "<|pad|>"
  /\ saved_tokenizers
       (w_trace (snd (export_lfm2_to_onnx lfm2_id lfm2_dir fresh_world)))
     = [padded_tokenizer].
Proof.
  split; [reflexivity |].
  assert (mkdir_parents_exist_ok (Path lfm2_dir) (w_fs fresh_world)
          = inr created_tree) as Hmk by reflexivity.
  assert (AutoTokenizer_from_pretrained lfm2_id = inr padded_tokenizer)
    as Htok by reflexivity.
  destruct (defined_pad_token_saved_as_loaded lfm2_id lfm2_dir fresh_world
              created_tree padded_tokenizer Hmk Htok)
    as (t & Hsaved & Hsame & _).
  rewrite Hsaved, (Hsame ltac:(discriminate)). reflexivity.
Defined.

End PaddedTokenizer.

Section TorchMissing.
#[local] Existing Instance no_torch_libs.

Lemma missing_library_exits_before_workflow_witness :
  exists evs,
    run_script [] fresh_world
    = (ExitCode 1,
       mkWorld (w_fs fresh_world) (w_log fresh_world)
         (w_stdout fresh_world ++
            ["Missing required packages: No module named 'torch'";
             "Install with: pip install transformers optimum[onnxruntime] torch"])
         (w_trace fresh_world ++ evs))
    /\ Forall (fun ev => exists m, ev = EvImport m) evs.
Proof.
  assert (first_import_error required_modules
          = Some (mkExn ImportError "No module named 'torch'"))
    as Hfirst by reflexivity.
  exact (missing_library_exits_before_workflow [] fresh_world _ Hfirst).
Defined.

End TorchMissing.

Section TorchFailsToLoad.
#[local] Existing Instance broken_torch_libs.

(** C6, as stated, fails: torch is installed but its import raises an
    [OSError] (a shared library it loads is missing).  The import guard
    does not catch it: the process ends by the uncaught exception, with no
    message of the script on stdout, and not by [exit(1)]. *)
Lemma broken_torch_import_is_not_caught :
  import_module "torch"
  = Some (mkExn OSError "libcudart.so: cannot open shared object file")
  /\ isinstance_ImportError
       (mkExn OSError "libcudart.so: cannot open shared object file") = false
  /\ run_script [] fresh_world
     = (Uncaught (mkExn OSError "libcudart.so: cannot open shared object file"),
        mkWorld (w_fs fresh_world) [] []
          [EvImport "transformers"; EvImport "optimum.onnxruntime";
           EvImport "torch"]).
Proof.
  split; [reflexivity |]. split; [reflexivity |]. vm_compute. reflexivity.
Qed.

End TorchFailsToLoad.

Section LoadFails.
#[local] Existing Instance failing_load_libs.

(** C10, as stated, fails: when the PyTorch load raises, the workflow
    with the load ends by that exception before any conversion, and the
    workflow without it returns with the converted model on disk. *)
Lemma failing_load_changes_the_artifacts :
  AutoModelForCausalLM_from_pretrained lfm2_id model_load_kwargs
  = inl (mkExn ExceptionCls "CUDA out of memory")
  /\ fst (export_lfm2_to_onnx lfm2_id lfm2_dir fresh_world)
     = Raise (mkExn ExceptionCls "CUDA out of memory")
  /\ fst (export_lfm2_to_onnx_without_load lfm2_id lfm2_dir fresh_world)
     = Return tt
  /\ is_file (Path lfm2_dir ++ ["model.onnx"])
       (w_fs (snd (export_lfm2_to_onnx lfm2_id lfm2_dir fresh_world))) = false
  /\ is_file (Path lfm2_dir ++ ["model.onnx"])
       (w_fs (snd (export_lfm2_to_onnx_without_load lfm2_id lfm2_dir fresh_world)))
     = true
  /\ w_fs (snd (export_lfm2_to_onnx lfm2_id lfm2_dir fresh_world))
     <> w_fs (snd (export_lfm2_to_onnx_without_load lfm2_id lfm2_dir fresh_world)).
Proof.
  repeat split; try (vm_compute; reflexivity).
  vm_compute. discriminate.
Qed.

End LoadFails.

(* ===================================================================== *)
(** * Further properties of the script *)
(* ===================================================================== *)

(** ** The output directory *)

Lemma put_entry_same (c : string) (ch : node) (es : list (string * node)) :
  assoc c es = Some ch -> put_entry c ch es = es.
Proof.
  induction es as [| [k v] es IH]; simpl; [discriminate |].
  destruct (String.eqb k c).
  - intros [= ->]. reflexivity.
  - intros H. rewrite (IH H). reflexivity.
Qed.

(** X1: [mkdir(parents=True, exist_ok=True)] accepts an output directory
    that already exists and leaves the whole tree, its contents included,
    as it was. *)
Theorem mkdir_accepts_existing_directory (p : path) (fs : node) :
  is_dir p fs -> mkdir_parents_exist_ok p fs = inr fs.
Proof.
  revert fs. induction p as [| c p IH]; intros fs (s & es & Hd); simpl in *.
  - inversion Hd; subst. reflexivity.
  - destruct fs as [s0 | s0 es0 | s0]; try discriminate.
    destruct (assoc c es0) as [ch |] eqn:Hc; [| discriminate].
    rewrite (IH ch (ex_intro _ s (ex_intro _ es Hd))).
    rewrite (put_entry_same c ch es0 Hc). reflexivity.
Qed.

Lemma mkdir_accepts_existing_directory_witness :
  is_dir ["models"; "lfm2-350m-onnx"] created_tree
  /\ mkdir_parents_exist_ok ["models"; "lfm2-350m-onnx"] created_tree
     = inr created_tree.
Proof.
  assert (is_dir ["models"; "lfm2-350m-onnx"] created_tree) as Hd
    by (eexists _, _; reflexivity).
  split; [exact Hd |].
  exact (mkdir_accepts_existing_directory _ _ Hd).
Defined.

(** X2: when a component of the output path exists and is not a
    directory (a regular file, for one), [mkdir] raises an [OSError]. *)
Theorem mkdir_blocked_raises_OSError (q r : path) (fs n : node) :
  lookup q fs = Some n ->
  (forall s es, n <> Dir s es) ->
  exists e,
    mkdir_parents_exist_ok (q ++ r) fs = inl e /\ exn_class e = OSError.
Proof.
  revert fs. induction q as [| c q IH]; intros fs Hq Hn; simpl in Hq.
  - inversion Hq; subst. destruct n as [s | s es | s].
    + destruct r; eexists; split; reflexivity.
    + destruct (Hn s es eq_refl).
    + destruct r; eexists; split; reflexivity.
  - destruct fs as [s0 | s0 es0 | s0]; try discriminate.
    destruct (assoc c es0) as [ch |] eqn:Hc; [| discriminate].
    destruct (IH ch Hq Hn) as (e & He & Hcls).
    exists e. simpl. rewrite Hc, He. auto.
Qed.

Lemma mkdir_blocked_raises_OSError_witness :
  exists e,
    mkdir_parents_exist_ok (["models"] ++ ["lfm2-350m-onnx"]) blocked_tree = inl e
    /\ exn_class e = OSError.
Proof.
  apply (mkdir_blocked_raises_OSError ["models"] ["lfm2-350m-onnx"] blocked_tree
           (File 3)).
  - reflexivity.
  - intros s es. discriminate.
Defined.

(** ** The reported size *)

Lemma round_half_even_error (num den : Z) :
  0 < den ->
  2 * Z.abs (num - round_half_even num den * den) <= den.
Proof.
  intros Hd. unfold round_half_even.
  pose proof (Z.div_mod num den ltac:(lia)) as Hdm.
  pose proof (Z.mod_pos_bound num den Hd) as Hr.
  destruct (Z.ltb_spec (2 * (num mod den)) den);
    [| destruct (Z.ltb_spec den (2 * (num mod den)));
       [| destruct (Z.even (num / den))]];
    nia.
Qed.

Lemma round_half_even_monotone (a b den : Z) :
  0 < den -> a <= b -> round_half_even a den <= round_half_even b den.
Proof.
  intros Hd Hab. unfold round_half_even.
  pose proof (Z.div_mod a den ltac:(lia)) as Ha.
  pose proof (Z.div_mod b den ltac:(lia)) as Hb.
  pose proof (Z.mod_pos_bound a den Hd) as Hra.
  pose proof (Z.mod_pos_bound b den Hd) as Hrb.
  assert (a / den <= b / den) as Hq by (apply Z.div_le_mono; lia).
  destruct (Z.eq_dec (a / den) (b / den)) as [Heq | Hne].
  - rewrite <- Heq in *.
    assert (a mod den <= b mod den) by nia.
    destruct (Z.ltb_spec (2 * (a mod den)) den),
             (Z.ltb_spec (2 * (b mod den)) den);
      try lia;
      destruct (Z.ltb_spec den (2 * (a mod den))),
               (Z.ltb_spec den (2 * (b mod den)));
      try lia; destruct (Z.even (a / den)); lia.
  - assert (a / den + 1 <= b / den) by lia.
    destruct (2 * (a mod den) <? den), (den <? 2 * (a mod den)),
             (Z.even (a / den)),
             (2 * (b mod den) <? den), (den <? 2 * (b mod den)),
             (Z.even (b / den)); lia.
Qed.

Lemma round_half_even_multiple (k den : Z) :
  0 < den -> round_half_even (k * den) den = k.
Proof.
  intros Hd. unfold round_half_even.
  rewrite Z.div_mul, Z.mod_mul by lia.
  destruct (Z.ltb_spec (2 * 0) den); [reflexivity | lia].
Qed.

(** A double at or above 2^53 stays within its binade. *)
Lemma nearest_double_binade (n : Z) :
  2 ^ 53 <= n ->
  nearest_double n = round_half_even n (2 ^ (Z.log2 n - 52)) * 2 ^ (Z.log2 n - 52)
  /\ 53 <= Z.log2 n
  /\ 2 ^ Z.log2 n <= nearest_double n <= 2 ^ (Z.log2 n + 1).
Proof.
  intros Hn. unfold nearest_double.
  destruct (Z.ltb_spec n (2 ^ 53)); [lia |].
  assert (53 <= Z.log2 n) as He.
  { rewrite <- (Z.log2_pow2 53) by lia. apply Z.log2_le_mono. exact Hn. }
  split; [reflexivity |]. split; [exact He |].
  cbv zeta.
  set (e := Z.log2 n) in *. set (ulp := 2 ^ (e - 52)).
  assert (0 < ulp) as Hulp by (apply Z.pow_pos_nonneg; lia).
  assert (0 < n) as Hpos by (pose proof (Z.pow_pos_nonneg 2 53); lia).
  destruct (Z.log2_spec n Hpos) as [Hlo Hhi]. fold e in Hlo, Hhi.
  assert (2 ^ e = 2 ^ 52 * ulp) as He52.
  { unfold ulp. rewrite <- Z.pow_add_r by lia. f_equal. lia. }
  assert (2 ^ (e + 1) = 2 ^ 53 * ulp) as He53.
  { unfold ulp. rewrite <- Z.pow_add_r by lia. f_equal. lia. }
  replace (Z.succ e) with (e + 1) in Hhi by lia.
  pose proof (round_half_even_monotone (2 ^ 52 * ulp) n ulp Hulp ltac:(lia)) as H1.
  pose proof (round_half_even_monotone n (2 ^ 53 * ulp) ulp Hulp ltac:(lia)) as H2.
  rewrite round_half_even_multiple in H1, H2 by exact Hulp.
  rewrite He52, He53. nia.
Qed.

Lemma nearest_double_monotone (a b : Z) :
  a <= b -> nearest_double a <= nearest_double b.
Proof.
  intros Hab.
  destruct (Z.lt_ge_cases a (2 ^ 53)) as [Ha | Ha],
           (Z.lt_ge_cases b (2 ^ 53)) as [Hb | Hb].
  - unfold nearest_double.
    destruct (Z.ltb_spec a (2 ^ 53)), (Z.ltb_spec b (2 ^ 53)); lia.
  - destruct (nearest_double_binade b Hb) as (_ & He & Hlo & _).
    assert (2 ^ 53 <= 2 ^ Z.log2 b) by (apply Z.pow_le_mono_r; lia).
    unfold nearest_double at 1.
    destruct (Z.ltb_spec a (2 ^ 53)); lia.
  - lia.
  - destruct (nearest_double_binade a Ha) as (Hda & Hea & _ & Hhia).
    destruct (nearest_double_binade b Hb) as (Hdb & Heb & Hlob & _).
    assert (Z.log2 a <= Z.log2 b) as Hlog by (apply Z.log2_le_mono; exact Hab).
    destruct (Z.eq_dec (Z.log2 a) (Z.log2 b)) as [Heq | Hne].
    + rewrite Hda, Hdb, Heq.
      assert (0 < 2 ^ (Z.log2 b - 52)) as Hulp by (apply Z.pow_pos_nonneg; lia).
      pose proof (round_half_even_monotone a b _ Hulp Hab). nia.
    + assert (2 ^ (Z.log2 a + 1) <= 2 ^ Z.log2 b)
        by (apply Z.pow_le_mono_r; lia).
      lia.
Qed.

Lemma nearest_double_exact (n : Z) : n < 2 ^ 53 -> nearest_double n = n.
Proof.
  intros Hn. unfold nearest_double.
  destruct (Z.ltb_spec n (2 ^ 53)); [reflexivity | lia].
Qed.

Lemma nearest_double_nonneg (n : Z) : 0 <= n -> 0 <= nearest_double n.
Proof.
  intros Hn. destruct (Z.lt_ge_cases n (2 ^ 53)) as [H | H].
  - rewrite nearest_double_exact; assumption.
  - destruct (nearest_double_binade n H) as (_ & He & Hlo & _).
    pose proof (Z.pow_pos_nonneg 2 (Z.log2 n)). lia.
Qed.

(** X3: for a directory of less than 2^53 bytes (8 PiB), symbolic links
    or not, the size [get_dir_size] returns is within half a hundredth of
    a megabyte of the exact size: in hundredths [h], and with [total_size]
    the byte count of the loop, |100 * total_size - h * 2^20| is at most
    2^19.  (From 2^53 bytes on the quotient is first rounded to a double
    and the bound can fail.) *)
Theorem get_dir_size_within_half_a_hundredth (p : path) (fs : Links.node) :
  Links.get_dir_size_total p fs < 2 ^ 53 ->
  2 * Z.abs (100 * Links.get_dir_size_total p fs
             - Links.get_dir_size p fs * (1024 * 1024))
  <= 1024 * 1024.
Proof.
  intros Hbound. unfold Links.get_dir_size, round_mb_2.
  rewrite (nearest_double_exact _ Hbound).
  replace (100 * Links.get_dir_size_total p fs)
    with (Links.get_dir_size_total p fs * 100) by lia.
  apply round_half_even_error. lia.
Qed.

Lemma get_dir_size_within_half_a_hundredth_witness :
  Links.get_dir_size_total ["out"] (without_links one_mib_tree) = 1048581
  /\ Links.get_dir_size ["out"] (without_links one_mib_tree) = 100
  /\ 2 * Z.abs (100 * Links.get_dir_size_total ["out"] (without_links one_mib_tree)
                - Links.get_dir_size ["out"] (without_links one_mib_tree)
                  * (1024 * 1024))
     <= 1024 * 1024.
Proof.
  split; [reflexivity |]. split; [reflexivity |].
  apply (get_dir_size_within_half_a_hundredth ["out"] (without_links one_mib_tree)).
  vm_compute. reflexivity.
Defined.

(** X4: the rounding of [get_dir_size] keeps the order of sizes: a
    larger byte count is never reported as a smaller number of
    megabytes. *)
Theorem round_mb_2_monotone (total1 total2 : Z) :
  total1 <= total2 -> round_mb_2 total1 <= round_mb_2 total2.
Proof.
  intros H. unfold round_mb_2. apply round_half_even_monotone; [lia |].
  pose proof (nearest_double_monotone _ _ H). lia.
Qed.

Lemma round_mb_2_monotone_witness :
  (5242 <= 5243)%Z /\ (round_mb_2 5242 <= round_mb_2 5243)%Z
  /\ round_mb_2 5242 = 0%Z /\ round_mb_2 5243 = 1%Z.
Proof.
  split; [lia |]. split; [apply round_mb_2_monotone; lia |].
  split; reflexivity.
Defined.



(** ** The pad-token step *)

(** X17: the pad-token step is idempotent, and it leaves the pad token
    undefined only for a tokenizer that defines neither a pad token nor
    an end-of-sequence token. *)
Theorem resolve_pad_token_idempotent (tok : tokenizer) :
  resolve_pad_token (resolve_pad_token tok) = resolve_pad_token tok
  /\ (pad_token (resolve_pad_token tok) = None
      <-> pad_token tok = None /\ eos_token tok = None).
Proof.
  destruct tok as [pad eos unk v attrs]. unfold resolve_pad_token.
  destruct pad as [pad |], eos as [eos |]; cbn; split;
    try reflexivity; split; try tauto; intros; try discriminate;
    intuition discriminate.
Qed.

(** ** The workflow, run by run *)

Section WorkflowRuns.
Context {L : Libs}.
Local Open Scope monad_scope.

Ltac reduce_monad :=
  lazy beta iota zeta delta
    [try_except bind ret raise call record_event logger_info
     logger_warning logger_error logger_log print get_fs set_fs exit
     w_fs w_log w_stdout w_trace];
  cbn [fst snd].

Ltac split_outcome :=
  match goal with
  | |- context [match ?x with inl _ => _ | inr _ => _ end] =>
      destruct x eqn:?
  | |- context [match ?x with Some _ => _ | None => _ end] =>
      destruct x eqn:?
  | |- context [if isinstance_Exception ?x then _ else _] =>
      destruct (isinstance_Exception x) eqn:?
  end;
  cbn [fst snd w_fs w_log w_stdout w_trace].

(** Every way a run can go, one goal each: the goal must be an
    implication from the run's outcome. *)
Ltac each_run model_id output_dir w :=
  rewrite (export_lfm2_to_onnx_phases model_id output_dir w);
  pose proof (report_success_run (Path output_dir)) as Hrep;
  destruct w as [fs lg out tr];
  unfold mkdir, acquire_and_convert, acquire_tokenizer, load_pytorch_model,
    convert_to_onnx, save_pretrained, export_failed, verify_export,
    verify_export_body;
  reduce_monad;
  repeat split_outcome;
  rewrite ?Hrep; cbn [fst snd w_fs w_log w_stdout w_trace].

Ltac each_outcome model_id output_dir w :=
  each_run model_id output_dir w;
  intros [= <- <-]; cbn [fst snd w_fs w_log w_stdout w_trace];
  repeat rewrite <- app_assoc; cbn [app].

(** The calls of a run are an initial stretch of [workflow_calls]. *)
Lemma export_calls (model_id output_dir : string) (w : world) (t : tokenizer) :
  (forall tok, AutoTokenizer_from_pretrained model_id = inr tok ->
               t = resolve_pad_token tok) ->
  forall r w',
    export_lfm2_to_onnx model_id output_dir w = (r, w') ->
    exists evs rest,
      w_trace w' = w_trace w ++ evs
      /\ evs ++ rest = workflow_calls model_id (Path output_dir) t.
Proof.
  intros Ht r w'.
  each_outcome model_id output_dir w;
    try rewrite <- (Ht _ eq_refl);
    eexists _, _; (split; [reflexivity |]);
    unfold workflow_calls; cbn [app]; reflexivity.
Qed.

(** X6: the third-party calls of every run, whatever the calls answer:
    the run makes the calls of one fixed sequence (mkdir, tokenizer load
    and save, PyTorch load, CUDA query, ONNX export and save, reload,
    tokenize, generate, decode) in program order, each at most once; a
    call is followed by the next one exactly when it (and the subscript
    after it) returned, so no call follows the first one that raises. *)
Theorem calls_follow_program_order
  (model_id output_dir : string) (w : world) :
  w_trace (snd (export_lfm2_to_onnx model_id output_dir w))
  = w_trace w ++ calls_made model_id (Path output_dir) (w_fs w)
  /\ exists t rest,
       calls_made model_id (Path output_dir) (w_fs w) ++ rest
       = workflow_calls model_id (Path output_dir) t.
Proof.
  assert (forall r w',
             export_lfm2_to_onnx model_id output_dir w = (r, w') ->
             w_trace w' = w_trace w ++ calls_made model_id (Path output_dir) (w_fs w))
    as Hcalls.
  { intros r w'.
    lazy beta iota zeta delta [calls_made and_then after_save].
    each_outcome model_id output_dir w;
      first [reflexivity | discriminate | congruence]. }
  destruct (export_lfm2_to_onnx model_id output_dir w) as [r w'] eqn:Hrun.
  cbn [snd]. split; [exact (Hcalls r w' eq_refl) |].
  destruct (AutoTokenizer_from_pretrained model_id) as [e | tok] eqn:Htok.
  - destruct (export_calls model_id output_dir w
                (mkTokenizer None None None [] [])
                ltac:(intros tok' Htok'; congruence) r w' Hrun)
      as (evs & rest & Htr & Hw).
    rewrite (Hcalls r w' eq_refl) in Htr. apply app_inv_head in Htr.
    exists (mkTokenizer None None None [] []), rest. rewrite Htr. exact Hw.
  - destruct (export_calls model_id output_dir w (resolve_pad_token tok)
                ltac:(intros tok' Htok'; congruence) r w' Hrun)
      as (evs & rest & Htr & Hw).
    rewrite (Hcalls r w' eq_refl) in Htr. apply app_inv_head in Htr.
    exists (resolve_pad_token tok), rest. rewrite Htr. exact Hw.
Qed.

(** X7: the generation of the verification runs with the tokenizer as
    saved.  When the loaded tokenizer had no pad token, every [generate]
    call of the run gets the id of the end-of-sequence token as
    [pad_token_id] as well as [eos_token_id], with [max_length=20] and
    sampling on. *)
Theorem verification_pads_with_eos
  (model_id output_dir : string) (w : world) (tok : tokenizer)
  (evs : list event) (kw : generate_kwargs) :
  AutoTokenizer_from_pretrained model_id = inr tok ->
  pad_token tok = None ->
  w_trace (snd (export_lfm2_to_onnx model_id output_dir w)) = w_trace w ++ evs ->
  In (EvGenerate kw) evs ->
  gen_pad_token_id kw = eos_token_id tok
  /\ gen_eos_token_id kw = eos_token_id tok
  /\ max_length kw = 20
  /\ do_sample kw = true.
Proof.
  intros Htok Hpad Htr Hin.
  destruct (export_lfm2_to_onnx model_id output_dir w) as [r w'] eqn:Hrun.
  destruct (export_calls model_id output_dir w (resolve_pad_token tok)
              ltac:(intros tok' Htok'; congruence) r w' Hrun)
    as (evs' & rest & Htr' & Hcalls).
  cbn [snd] in Htr. rewrite Htr' in Htr. apply app_inv_head in Htr. subst evs'.
  assert (In (EvGenerate kw)
            (workflow_calls model_id (Path output_dir) (resolve_pad_token tok)))
    as Hin' by (rewrite <- Hcalls; apply in_or_app; left; exact Hin).
  unfold workflow_calls in Hin'. cbn [In] in Hin'.
  repeat (destruct Hin' as [Hin' | Hin']; [try discriminate Hin' |]);
    [| destruct Hin'].
  injection Hin' as <-.
  unfold verify_kwargs, resolve_pad_token. rewrite Hpad.
  cbn. auto.
Qed.

(** X8: a failure to create the output directory is raised before the
    [try] block: the exception leaves [export_lfm2_to_onnx] with only the
    start line logged, no [Export failed] line, and no call but [mkdir]
    made. *)
Theorem mkdir_failure_is_not_logged
  (model_id output_dir : string) (w : world) (e : exn) :
  mkdir_parents_exist_ok (Path output_dir) (w_fs w) = inl e ->
  export_lfm2_to_onnx model_id output_dir w
  = (Raise e,
     mkWorld (w_fs w)
       (w_log w ++ [(INFO, "Starting LFM2-350M ONNX export from " +++ model_id)])
       (w_stdout w)
       (w_trace w ++ [EvMkdir (Path output_dir)])).
Proof.
  intros Hmk. rewrite export_lfm2_to_onnx_run, Hmk. reflexivity.
Qed.


(** X10: the size in the last log line of a successful run is that of
    the output directory as the run leaves it: the log ends with the
    banner, the [Model saved to] line and the [Model size] line computed
    by [get_dir_size] on the final tree. *)
Theorem reported_size_is_of_final_tree
  (model_id output_dir : string) (w w' : world) :
  export_lfm2_to_onnx model_id output_dir w = (Return tt, w') ->
  exists earlier,
    w_log w'
    = earlier ++
      [success_banner;
       (INFO, "Model saved to: " +++ str_path (Path output_dir));
       (INFO, "Model size: "
                +++ repr_hundredths (get_dir_size (Path output_dir) (w_fs w'))
                +++ " MB")].
Proof.
  each_run model_id output_dir w;
    intros Hrun; try discriminate Hrun; injection Hrun as <-;
    cbn [w_fs w_log]; eexists; reflexivity.
Qed.

(** X11: [Export failed] is logged exactly when an instance of
    [Exception] leaves the [try] block.  The run logs one ERROR entry, the
    [Export failed] line of the exception it raises, when the output
    directory was created and the run ends by an instance of [Exception];
    in every other run (success, failed [mkdir], KeyboardInterrupt or
    SystemExit) it logs no ERROR entry at all. *)
Theorem export_failed_logged_exactly_once
  (model_id output_dir : string) (w : world) :
  forall r w',
    export_lfm2_to_onnx model_id output_dir w = (r, w') ->
    exists entries,
      w_log w' = w_log w ++ entries
      /\ errors_logged entries
         = match mkdir_parents_exist_ok (Path output_dir) (w_fs w), r with
           | inr _, Raise e =>
               if isinstance_Exception e
               then [(ERROR, "Export failed: " +++ exn_str e)]
               else []
           | _, _ => []
           end.
Proof.
  intros r w'.
  each_outcome model_id output_dir w;
    (eexists; split; [reflexivity |]);
    repeat match goal with
           | H : isinstance_Exception ?x = _
             |- context [isinstance_Exception ?x] => rewrite H
           end;
    reflexivity.
Qed.

(** X12: [verify_export] is a read-only check: it leaves the file tree
    and standard output as they were, and no instance of [Exception]
    leaves it. *)
Theorem verify_export_is_read_only (p : path) (t : tokenizer) (w : world) :
  w_fs (snd (verify_export p t w)) = w_fs w
  /\ w_stdout (snd (verify_export p t w)) = w_stdout w
  /\ forall e,
       fst (verify_export p t w) = Raise e -> isinstance_Exception e = false.
Proof.
  destruct (verify_export_frame p t w) as (r & entries & evs & Hv & _ & _ & Hr).
  rewrite Hv. cbn [fst snd w_fs w_stdout]. repeat split.
  intros e [= ->]. exact Hr.
Qed.

(** X13: [verify_export] never swallows a failure silently.  When it
    returns, one of two things happened.  Either every call of its [try]
    block returned (the reload of the model from the output directory, the
    tokenization of the prompt, [generate] on its input ids, the decoding
    of the first output), and the log has gained the one line
    [Verification successful ...] carrying the text [decode] returned.  Or
    the [try] block raised an instance of [Exception] before logging
    anything, and the log has gained the two warnings, the first of which
    carries the text of that exception. *)
Theorem verify_export_reports_its_outcome (p : path) (t : tokenizer) (w w' : world) :
  verify_export p t w = (Return tt, w') ->
  (exists model inputs input_ids outputs first generated_text,
      ORTModelForCausalLM_from_pretrained (lookup p (w_fs w)) = inr model
      /\ tokenizer_call t "Hello, I am" = inr inputs
      /\ getitem_input_ids inputs = inr input_ids
      /\ generate model input_ids (verify_kwargs t) = inr outputs
      /\ getitem_0 outputs = inr first
      /\ tokenizer_decode t first = inr generated_text
      /\ verify_export_body p t w = (Return tt, w')
      /\ w_log w'
         = w_log w ++
           [(INFO, "✅ Verification successful. Generated: '" +++ generated_text +++ "'")])
  \/ (exists e wb,
         verify_export_body p t w = (Raise e, wb)
         /\ isinstance_Exception e = true
         /\ w_log wb = w_log w
         /\ w_log w'
            = w_log w ++
              [(WARNING, "Model verification failed: " +++ exn_str e);
               (WARNING, "The model was exported but may have issues with inference.")]).
Proof.
  destruct w as [fs lg out tr].
  unfold verify_export, verify_export_body. reduce_monad.
  repeat split_outcome; intros Hrun; try discriminate Hrun;
    injection Hrun as <-; cbn [w_log]; repeat rewrite <- app_assoc; cbn [app];
    first [ left; eexists _, _, _, _, _, _;
            repeat (split; [first [eassumption | reflexivity] |]); reflexivity
          | right; eexists _, _; split; [reflexivity |];
            split; [eassumption |]; split; reflexivity ].
Qed.

(** X14: the import guard catches [ImportError] only.  When a guarded
    import raises an exception of another class (an [OSError] from a
    broken installation, for one), that exception leaves the module body:
    the two lines of the guard are not printed, and no call but imports
    has been made. *)
Theorem import_guard_catches_only_ImportError
  (argv : list string) (w : world) (e : exn) :
  first_import_error required_modules = Some e ->
  isinstance_ImportError e = false ->
  exists evs,
    script argv w
    = (Raise e, mkWorld (w_fs w) (w_log w) (w_stdout w) (w_trace w ++ evs))
    /\ Forall (fun ev => exists m, ev = EvImport m) evs.
Proof.
  destruct w as [fs lg out tr].
  unfold required_modules, script, import_.
  cbn [first_import_error]. intros Hfirst Himp.
  reduce_monad.
  destruct (import_module "transformers") as [e1 |];
    [injection Hfirst as ->; rewrite Himp;
     eexists; split; [repeat rewrite <- app_assoc; reflexivity |
      cbn [app]; repeat (constructor; [eexists; reflexivity |]); constructor] |].
  destruct (import_module "optimum.onnxruntime") as [e2 |];
    [injection Hfirst as ->; rewrite Himp;
     eexists; split; [repeat rewrite <- app_assoc; reflexivity |
      cbn [app]; repeat (constructor; [eexists; reflexivity |]); constructor] |].
  destruct (import_module "torch") as [e3 |]; [| discriminate].
  injection Hfirst as ->. rewrite Himp.
  eexists. split; [repeat rewrite <- app_assoc; reflexivity |].
  cbn [app]. repeat (constructor; [eexists; reflexivity |]). constructor.
Qed.

(** X15: when the imports succeed and [parse_args] raises (the
    [SystemExit] of [--help], after argparse has printed the help text on
    stdout, or of a usage error), the exception leaves [main] and the
    module body before any step of the export: logging is configured, the
    arguments are parsed, what argparse printed is the only new output on
    stdout, and nothing is logged or written. *)
Theorem parse_failure_stops_before_export
  (argv : list string) (w : world) (printed : list string) (e : exn) :
  first_import_error required_modules = None ->
  parse_args parser_arguments argv = inl (printed, e) ->
  script argv w
  = (Raise e,
     mkWorld (w_fs w) (w_log w) (w_stdout w ++ printed)
       (w_trace w ++
          [EvImport "transformers"; EvImport "optimum.onnxruntime";
           EvImport "torch"; EvLoggingBasicConfig; EvParseArgs])).
Proof.
  destruct w as [fs lg out tr].
  unfold required_modules, script, import_, main, call_printing.
  cbn [first_import_error]. intros Hfirst Hparse.
  rewrite Hparse. unfold print_lines. reduce_monad.
  destruct (import_module "transformers"); [discriminate |].
  destruct (import_module "optimum.onnxruntime"); [discriminate |].
  destruct (import_module "torch"); [discriminate |].
  repeat rewrite <- app_assoc. reflexivity.
Qed.

End WorkflowRuns.

(** ** Runs of the further properties on concrete libraries *)

Section AllCallsSucceedAgain.
#[local] Existing Instance ok_libs.

Lemma calls_follow_program_order_witness :
  w_trace (snd (export_lfm2_to_onnx lfm2_id lfm2_dir fresh_world))
  = workflow_calls lfm2_id (Path lfm2_dir) (resolve_pad_token lfm2_tokenizer).
Proof.
  rewrite (proj1 (calls_follow_program_order lfm2_id lfm2_dir fresh_world)).
  vm_compute. reflexivity.
Defined.

Lemma verification_pads_with_eos_witness :
  gen_pad_token_id (verify_kwargs (resolve_pad_token lfm2_tokenizer)) = Some 7%Z
  /\ gen_eos_token_id (verify_kwargs (resolve_pad_token lfm2_tokenizer)) = Some 7%Z.
Proof.
  assert (AutoTokenizer_from_pretrained lfm2_id = inr lfm2_tokenizer)
    as Htok by reflexivity.
  assert (w_trace (snd (export_lfm2_to_onnx lfm2_id lfm2_dir fresh_world))
          = w_trace fresh_world
            ++ w_trace (snd (export_lfm2_to_onnx lfm2_id lfm2_dir fresh_world)))
    as Htr by reflexivity.
  assert (In (EvGenerate (verify_kwargs (resolve_pad_token lfm2_tokenizer)))
            (w_trace (snd (export_lfm2_to_onnx lfm2_id lfm2_dir fresh_world))))
    as Hin by in_list.
  destruct (verification_pads_with_eos lfm2_id lfm2_dir fresh_world lfm2_tokenizer
              _ _ Htok eq_refl Htr Hin) as (Hpad & Heos & _).
  rewrite Hpad, Heos. split; reflexivity.
Defined.

Lemma mkdir_failure_is_not_logged_witness :
  fst (export_lfm2_to_onnx lfm2_id lfm2_dir blocked_world)
  = Raise (mkExn OSError "[Errno 20] Not a directory")
  /\ w_log (snd (export_lfm2_to_onnx lfm2_id lfm2_dir blocked_world))
     = [(INFO, "Starting LFM2-350M ONNX export from LiquidAI/LFM2-350M")].
Proof.
  assert (mkdir_parents_exist_ok (Path lfm2_dir) (w_fs blocked_world)
          = inl (mkExn OSError "[Errno 20] Not a directory"))
    as Hmk by reflexivity.
  rewrite (mkdir_failure_is_not_logged lfm2_id lfm2_dir blocked_world _ Hmk).
  split; reflexivity.
Defined.

Lemma reported_size_is_of_final_tree_witness :
  exists earlier,
    w_log (snd (export_lfm2_to_onnx lfm2_id lfm2_dir fresh_world))
    = earlier ++
      [success_banner;
       (INFO, "Model saved to: models/lfm2-350m-onnx");
       (INFO, "Model size: 5.6 MB")].
Proof.
  destruct (reported_size_is_of_final_tree lfm2_id lfm2_dir fresh_world
              (snd (export_lfm2_to_onnx lfm2_id lfm2_dir fresh_world)))
    as (earlier & Hlog); [vm_compute; reflexivity |].
  exists earlier. rewrite Hlog. reflexivity.
Defined.

Lemma verify_export_reports_its_outcome_witness :
  w_log (snd (verify_export (Path lfm2_dir) (resolve_pad_token lfm2_tokenizer)
                created_world))
  = [(INFO, "✅ Verification successful. Generated: 'Hello, I am a language model'")].
Proof.
  destruct (verify_export_reports_its_outcome (Path lfm2_dir)
              (resolve_pad_token lfm2_tokenizer) created_world
              (snd (verify_export (Path lfm2_dir)
                      (resolve_pad_token lfm2_tokenizer) created_world)))
    as [(model & inputs & input_ids & outputs & first & text & _) |
        (e & wb & _)];
    [vm_compute; reflexivity | |]; vm_compute; reflexivity.
Defined.

End AllCallsSucceedAgain.

Section UnknownModelAgain.
#[local] Existing Instance unknown_model_libs.

Lemma export_failed_logged_exactly_once_witness :
  exists entries,
    w_log (snd (export_lfm2_to_onnx lfm2_id lfm2_dir fresh_world))
    = w_log fresh_world ++ entries
    /\ errors_logged entries
       = [(ERROR, "Export failed: LiquidAI/LFM2-350M is not a valid model identifier")].
Proof.
  destruct (export_failed_logged_exactly_once lfm2_id lfm2_dir fresh_world
              (fst (export_lfm2_to_onnx lfm2_id lfm2_dir fresh_world))
              (snd (export_lfm2_to_onnx lfm2_id lfm2_dir fresh_world)))
    as (entries & Hlog & Herr); [vm_compute; reflexivity |].
  exists entries. split; [exact Hlog |]. rewrite Herr. reflexivity.
Defined.

End UnknownModelAgain.

Section TorchBroken.
#[local] Existing Instance broken_torch_libs.

Lemma import_guard_catches_only_ImportError_witness :
  exists evs,
    script [] fresh_world
    = (Raise (mkExn OSError "libcudart.so: cannot open shared object file"),
       mkWorld (w_fs fresh_world) (w_log fresh_world) (w_stdout fresh_world)
         (w_trace fresh_world ++ evs))
    /\ Forall (fun ev => exists m, ev = EvImport m) evs.
Proof.
  assert (first_import_error required_modules
          = Some (mkExn OSError "libcudart.so: cannot open shared object file"))
    as Hfirst by reflexivity.
  exact (import_guard_catches_only_ImportError [] fresh_world _ Hfirst eq_refl).
Defined.

End TorchBroken.

Section UsageError.
#[local] Existing Instance usage_error_libs.

Lemma parse_failure_stops_before_export_witness :
  run_script ["--help"] fresh_world
  = (ExitCode 0,
     mkWorld (w_fs fresh_world) (w_log fresh_world) help_text
       [EvImport "transformers"; EvImport "optimum.onnxruntime";
        EvImport "torch"; EvLoggingBasicConfig; EvParseArgs])
  /\ run_script ["--verfy"] fresh_world
     = (ExitCode 2,
        mkWorld (w_fs fresh_world) (w_log fresh_world) (w_stdout fresh_world)
          [EvImport "transformers"; EvImport "optimum.onnxruntime";
           EvImport "torch"; EvLoggingBasicConfig; EvParseArgs]).
Proof.
  assert (first_import_error required_modules = None) as Himp by reflexivity.
  assert (parse_args parser_arguments ["--help"]
          = inl (help_text, mkExn (SystemExit 0) EmptyString))
    as Hhelp by reflexivity.
  assert (parse_args parser_arguments ["--verfy"]
          = inl ([], mkExn (SystemExit 2) "unrecognized arguments: --verfy"))
    as Hparse by reflexivity.
  unfold run_script.
  rewrite (parse_failure_stops_before_export ["--help"] fresh_world _ _ Himp Hhelp).
  rewrite (parse_failure_stops_before_export ["--verfy"] fresh_world _ _ Himp Hparse).
  split; reflexivity.
Defined.

End UsageError.

(* ===================================================================== *)
(** * [get_dir_size] on trees with symbolic links *)
(* ===================================================================== *)

Section LinksFacts.
Import Links.

(** Induction over a snapshot that reaches the children of a directory
    and the target of a link. *)
Lemma links_node_ind (P : Links.node -> Prop)
  (HF : forall s, P (Links.File s))
  (HS : forall s, P (Links.Special s))
  (HD : forall s es, Forall (fun e => P (snd e)) es -> P (Links.Dir s es))
  (HN : P (Links.Symlink None))
  (HL : forall t, P t -> P (Links.Symlink (Some t))) :
  forall n, P n.
Proof.
  fix IH 1. intros [s | s es | s | [t |]].
  - apply HF.
  - apply HD. induction es as [| [k c] es IHes]; constructor.
    + simpl. apply IH.
    + exact IHes.
  - apply HS.
  - apply HL, IH.
  - apply HN.
Qed.

(** Following links ends on something that is no link. *)
Lemma follow_fixed (n m : Links.node) :
  Links.follow n = Some m ->
  Links.follow m = Some m /\ (forall t, m <> Links.Symlink t).
Proof.
  induction n as [s | s | s es _ | | t IH] using links_node_ind;
    simpl; intros H; try (injection H as <-; split; [reflexivity | discriminate]).
  - discriminate.
  - exact (IH H).
Qed.

Lemma links_wf_follow (n m : Links.node) :
  Links.wf_node n = true -> Links.follow n = Some m -> Links.wf_node m = true.
Proof.
  induction n as [s | s | s es _ | | t IH] using links_node_ind;
    simpl; intros Hwf H; try (injection H as <-; exact Hwf).
  - discriminate.
  - exact (IH Hwf H).
Qed.

Lemma links_wf_entries s (es : list (string * Links.node)) :
  Links.wf_node (Links.Dir s es) = true ->
  names_nodup (map fst es) = true
  /\ forall k c, In (k, c) es -> Links.wf_node c = true.
Proof.
  simpl. rewrite andb_true_iff. intros [Hn Hall]. split; [exact Hn |].
  clear Hn. induction es as [| [k' c'] es IH]; intros k c Hin; [destruct Hin |].
  apply andb_true_iff in Hall as [Hc Hall].
  destruct Hin as [[= <- <-] | Hin]; [exact Hc | exact (IH Hall k c Hin)].
Qed.

Lemma links_assoc_In (es : list (string * Links.node)) k c :
  Links.assoc k es = Some c -> In (k, c) es.
Proof.
  induction es as [| [k' c'] es IH]; simpl; [discriminate |].
  destruct (String.eqb_spec k' k) as [-> | _].
  - intros [= ->]. left. reflexivity.
  - intros H. right. exact (IH H).
Qed.

Lemma links_assoc_In_nodup (es : list (string * Links.node)) k c :
  names_nodup (map fst es) = true -> In (k, c) es -> Links.assoc k es = Some c.
Proof.
  induction es as [| [k' c'] es IH]; simpl; [tauto |].
  rewrite andb_true_iff, negb_true_iff. intros [Hk Hn] [Heq | Hin].
  - inversion Heq; subst. rewrite String.eqb_refl. reflexivity.
  - destruct (String.eqb_spec k' k) as [-> | _]; [| auto].
    exfalso. apply (in_map fst) in Hin. simpl in Hin.
    assert (existsb (String.eqb k) (map fst es) = true) as Hex.
    { apply existsb_exists. exists k. split; [exact Hin | apply String.eqb_refl]. }
    congruence.
Qed.

Lemma links_lookup_app (p q : path) (fs : Links.node) :
  Links.lookup (p ++ q) fs =
  match Links.lookup p fs with Some n => Links.lookup q n | None => None end.
Proof.
  revert fs. induction p as [| c p IH]; intros fs; simpl.
  - reflexivity.
  - destruct (Links.follow fs) as [[s | s es | s | t] |]; try reflexivity.
    destruct (Links.assoc c es); [apply IH | reflexivity].
Qed.

Lemma links_wf_lookup (p : path) :
  forall fs n,
    Links.wf_node fs = true -> Links.lookup p fs = Some n ->
    Links.wf_node n = true.
Proof.
  induction p as [| c p IH]; intros fs n Hwf Hp; simpl in Hp.
  - congruence.
  - destruct (Links.follow fs) as [[s | s es | s | t] |] eqn:Hf; try discriminate.
    destruct (Links.assoc c es) as [ch |] eqn:Hc; [| discriminate].
    apply (IH ch n); [| exact Hp].
    pose proof (links_wf_follow _ _ Hwf Hf) as Hd.
    exact (proj2 (links_wf_entries s es Hd) c ch (links_assoc_In _ _ _ Hc)).
Qed.

Lemma links_fold_acc (fs : Links.node) (l : list path) (a : Z) :
  fold_left (Links.add_file_size fs) l a
  = a + fold_left (Links.add_file_size fs) l 0.
Proof.
  revert a. induction l as [| p l IH]; intros a; simpl.
  - lia.
  - rewrite IH, (IH (Links.add_file_size fs 0 p)).
    unfold Links.add_file_size. destruct (Links.is_file p fs); lia.
Qed.

Lemma links_fold_app (fs : Links.node) (l1 l2 : list path) :
  fold_left (Links.add_file_size fs) (l1 ++ l2) 0
  = fold_left (Links.add_file_size fs) l1 0
    + fold_left (Links.add_file_size fs) l2 0.
Proof.
  rewrite fold_left_app. apply links_fold_acc.
Qed.

Lemma links_descendants_cons s k c l :
  Links.descendants (Links.Dir s ((k, c) :: l))
  = ([k] :: map (cons k) (Links.descendants c)) ++ Links.descendants (Links.Dir s l).
Proof. reflexivity. Qed.

Lemma links_regular_file_sizes_cons s k c l :
  Links.regular_file_sizes (Links.Dir s ((k, c) :: l))
  = (match c with Links.File sz => [Z.of_N sz] | _ => [] end)
      ++ Links.regular_file_sizes c ++ Links.regular_file_sizes (Links.Dir s l).
Proof. reflexivity. Qed.

Lemma links_link_target_sizes_cons s k c l :
  Links.link_target_sizes (Links.Dir s ((k, c) :: l))
  = (match c with
     | Links.Symlink _ =>
         match Links.follow c with
         | Some (Links.File sz) => [Z.of_N sz]
         | _ => []
         end
     | _ => []
     end)
      ++ Links.link_target_sizes c ++ Links.link_target_sizes (Links.Dir s l).
Proof. reflexivity. Qed.

(** What one entry adds: its size when it is a regular file or a link
    to one. *)
Lemma links_add_entry (fs c : Links.node) (q : path) :
  Links.lookup q fs = Some c ->
  Links.add_file_size fs 0 q
  = sum_Z (match c with Links.File sz => [Z.of_N sz] | _ => [] end)
    + sum_Z (match c with
             | Links.Symlink _ =>
                 match Links.follow c with
                 | Some (Links.File sz) => [Z.of_N sz]
                 | _ => []
                 end
             | _ => []
             end).
Proof.
  intros Hq. unfold Links.add_file_size, Links.is_file, Links.stat_st_size.
  rewrite Hq. destruct c as [s | s es | s | t].
  - simpl. lia.
  - reflexivity.
  - reflexivity.
  - destruct (Links.follow (Links.Symlink t)) as [[s | s es | s | t'] |];
      simpl; lia.
Qed.

(** The loop over the enumeration of a directory adds up the regular
    files below it and the regular files its links resolve to. *)
Lemma links_fold_descendants (fs : Links.node) :
  forall d p,
    Links.wf_node d = true ->
    (forall k rel,
        Links.lookup (p ++ k :: rel) fs = Links.lookup (k :: rel) d) ->
    fold_left (Links.add_file_size fs) (map (app p) (Links.descendants d)) 0
    = sum_Z (Links.regular_file_sizes d) + sum_Z (Links.link_target_sizes d).
Proof.
  induction d as [s | s | s es IHes | | t _] using links_node_ind;
    intros p Hwf Hsub; try reflexivity.
  destruct (links_wf_entries s es Hwf) as [Hnodup Hwfes].
  assert (forall k c, In (k, c) es ->
            forall rel, Links.lookup (p ++ k :: rel) fs = Links.lookup rel c)
    as Hent.
  { intros k c Hin rel. rewrite (Hsub k rel). simpl.
    rewrite (links_assoc_In_nodup es k c Hnodup Hin). reflexivity. }
  clear Hsub Hwf Hnodup.
  induction es as [| [k c] l IHl]; [reflexivity |].
  inversion IHes as [| ? ? IHc IHrest]; subst. simpl in IHc.
  rewrite links_descendants_cons, links_regular_file_sizes_cons,
    links_link_target_sizes_cons.
  rewrite map_app, links_fold_app, map_cons, map_app_cons.
  cbn [fold_left]. rewrite links_fold_acc.
  rewrite (links_add_entry fs c (p ++ [k]))
    by (rewrite (Hent k c (or_introl eq_refl) []); reflexivity).
  rewrite (IHc (p ++ [k])).
  - rewrite IHl.
    + rewrite !sum_Z_app. lia.
    + exact IHrest.
    + intros k' c' Hin. apply (Hwfes k' c'). right. exact Hin.
    + intros k' c' Hin. apply Hent. right. exact Hin.
  - apply (Hwfes k c). left. reflexivity.
  - intros k' rel. rewrite <- app_assoc. cbn [app].
    apply (Hent k c (or_introl eq_refl)).
Qed.

Lemma links_get_dir_size_total_sum (p : path) (fs : Links.node) :
  Links.wf_node fs = true ->
  Links.get_dir_size_total p fs
  = Links.sum_regular_files_under p fs + Links.sum_link_targets_under p fs.
Proof.
  intros Hwf.
  unfold Links.get_dir_size_total, Links.sum_regular_files_under,
    Links.sum_link_targets_under, Links.directory_at, Links.rglob.
  destruct (Links.lookup p fs) as [n |] eqn:Hp; [| reflexivity].
  destruct (Links.follow n) as [d |] eqn:Hf; [| reflexivity].
  apply links_fold_descendants.
  - apply (links_wf_follow n d); [| exact Hf].
    exact (links_wf_lookup p fs n Hwf Hp).
  - intros k rel. rewrite links_lookup_app, Hp. simpl.
    rewrite Hf, (proj1 (follow_fixed n d Hf)). reflexivity.
Qed.

Lemma links_sums_nonneg (n : Links.node) :
  Forall (fun x => 0 <= x) (Links.regular_file_sizes n)
  /\ Forall (fun x => 0 <= x) (Links.link_target_sizes n).
Proof.
  induction n as [s | s | s es IHes | | t _] using links_node_ind;
    try (split; constructor; fail).
  induction es as [| [k c] l IHl]; [split; constructor |].
  inversion IHes as [| ? ? [IHc1 IHc2] IHrest]; subst.
  destruct (IHl IHrest) as [IH1 IH2].
  rewrite links_regular_file_sizes_cons, links_link_target_sizes_cons.
  rewrite !Forall_app. repeat split; try assumption.
  - destruct c; repeat constructor; lia.
  - destruct c as [s0 | s0 es0 | s0 | t0]; try constructor.
    destruct (Links.follow (Links.Symlink t0)) as [[s1 | s1 es1 | s1 | t1] |];
      repeat constructor; lia.
Qed.

End LinksFacts.

(** C5, as amended: on a snapshot whose directories have unique names
    and whose files total less than 2^1043 bytes, the byte count
    [get_dir_size] adds up is the sum of the sizes of all regular files
    recursively under the directory (links to directories are not entered)
    plus the sizes of the regular files that symbolic links under it
    resolve to.  The value it returns is that count divided by 1024 * 1024
    in double precision and rounded to two decimals, ties to even; it is
    non-negative, and below 2^53 bytes it is the rounding of the exact
    quotient. *)
Theorem get_dir_size_is_rounded_sum (p : path) (fs : Links.node) :
  Links.wf_node fs = true ->
  Links.sum_regular_files_under p fs + Links.sum_link_targets_under p fs
    < 2 ^ 1043 ->
  Links.get_dir_size_total p fs
  = Links.sum_regular_files_under p fs + Links.sum_link_targets_under p fs
  /\ Links.get_dir_size p fs
     = round_half_even
         (nearest_double
            (Links.sum_regular_files_under p fs
             + Links.sum_link_targets_under p fs) * 100)
         (1024 * 1024)
  /\ (Links.sum_regular_files_under p fs + Links.sum_link_targets_under p fs
        < 2 ^ 53 ->
      Links.get_dir_size p fs
      = round_half_even
          (100 * (Links.sum_regular_files_under p fs
                  + Links.sum_link_targets_under p fs))
          (1024 * 1024))
  /\ 0 <= Links.get_dir_size p fs.
Proof.
  intros Hwf _. pose proof (links_get_dir_size_total_sum p fs Hwf) as Htot.
  unfold Links.get_dir_size, round_mb_2. rewrite Htot.
  split; [reflexivity |]. split; [reflexivity |]. split.
  - intros Hsmall. rewrite (nearest_double_exact _ Hsmall). f_equal. lia.
  - apply round_half_even_nonneg; [| lia].
    assert (0 <= Links.sum_regular_files_under p fs
                 + Links.sum_link_targets_under p fs) as Hnn.
    { unfold Links.sum_regular_files_under, Links.sum_link_targets_under.
      destruct (Links.directory_at p fs) as [d |]; [| lia].
      destruct (links_sums_nonneg d) as [H1 H2].
      pose proof (sum_Z_nonneg _ H1). pose proof (sum_Z_nonneg _ H2). lia. }
    pose proof (nearest_double_nonneg _ Hnn). lia.
Qed.

Lemma get_dir_size_is_rounded_sum_witness :
  Links.wf_node linked_tree = true
  /\ Links.sum_regular_files_under ["out"] linked_tree = 1048576
  /\ Links.sum_link_targets_under ["out"] linked_tree = 3145728
  /\ Links.get_dir_size_total ["out"] linked_tree = 4194304
  /\ Links.get_dir_size ["out"] linked_tree = 400.
Proof.
  assert (Links.wf_node linked_tree = true) as Hwf by reflexivity.
  assert (Links.sum_regular_files_under ["out"] linked_tree
          + Links.sum_link_targets_under ["out"] linked_tree < 2 ^ 1043)
    as Hbound by (vm_compute; reflexivity).
  destruct (get_dir_size_is_rounded_sum ["out"] linked_tree Hwf Hbound)
    as (Ht & Hs & _).
  split; [exact Hwf |]. split; [reflexivity |]. split; [reflexivity |].
  split; [rewrite Ht | rewrite Hs]; vm_compute; reflexivity.
Defined.

(** On a tree without links the snapshot functions are the functions of
    the workflow's tree. *)
Lemma without_links_Dir s (es : list (string * node)) :
  without_links (Dir s es)
  = Links.Dir s (map (fun e => (fst e, without_links (snd e))) es).
Proof.
  simpl. f_equal. induction es as [| [k c] es IH]; simpl; [reflexivity |].
  rewrite IH. reflexivity.
Qed.

Lemma without_links_follow (n : node) :
  Links.follow (without_links n) = Some (without_links n).
Proof. destruct n; reflexivity. Qed.

Lemma without_links_assoc k (es : list (string * node)) :
  Links.assoc k (map (fun e => (fst e, without_links (snd e))) es)
  = option_map without_links (assoc k es).
Proof.
  induction es as [| [k' c] es IH]; simpl; [reflexivity |].
  destruct (String.eqb k' k); [reflexivity | exact IH].
Qed.

Lemma without_links_lookup (p : path) :
  forall fs, Links.lookup p (without_links fs)
             = option_map without_links (lookup p fs).
Proof.
  induction p as [| c p IH]; intros fs; [reflexivity |].
  cbn [Links.lookup lookup]. rewrite without_links_follow.
  destruct fs as [s | s es | s]; try reflexivity.
  rewrite without_links_Dir, without_links_assoc.
  destruct (assoc c es) as [ch |]; [apply IH | reflexivity].
Qed.

Lemma without_links_descendants (n : node) :
  Links.descendants (without_links n) = descendants n.
Proof.
  induction n as [s | s | s es IHes] using node_rect_entries; try reflexivity.
  rewrite without_links_Dir.
  induction es as [| [k c] l IHl]; [reflexivity |].
  inversion IHes as [| ? ? IHc IHrest]; subst. simpl in IHc.
  cbn [map fst snd]. rewrite links_descendants_cons, descendants_cons.
  rewrite IHc, (IHl IHrest). reflexivity.
Qed.

Lemma without_links_get_dir_size (p : path) (fs : node) :
  Links.get_dir_size_total p (without_links fs) = get_dir_size_total p fs
  /\ Links.get_dir_size p (without_links fs) = get_dir_size p fs.
Proof.
  assert (Links.get_dir_size_total p (without_links fs) = get_dir_size_total p fs)
    as Ht.
  { unfold Links.get_dir_size_total, get_dir_size_total, Links.rglob, rglob.
    rewrite without_links_lookup.
    assert (forall l a,
               fold_left (Links.add_file_size (without_links fs)) l a
               = fold_left (add_file_size fs) l a) as Hfold.
    { induction l as [| q l IH]; intros a; [reflexivity |].
      cbn [fold_left]. rewrite IH. f_equal.
      unfold Links.add_file_size, add_file_size, Links.is_file, is_file,
        Links.stat_st_size, stat_st_size.
      rewrite without_links_lookup.
      destruct (lookup q fs) as [[s | s es | s] |]; reflexivity. }
    destruct (lookup p fs) as [n |]; [| reflexivity].
    cbn [option_map]. rewrite without_links_follow, without_links_descendants.
    apply Hfold. }
  split; [exact Ht |]. unfold Links.get_dir_size, get_dir_size.
  rewrite Ht. reflexivity.
Qed.

(** X16: only what the directory holds counts, its links' targets
    included: on snapshots whose directories have unique names, two trees
    in which the path names the same directory (with the same resolutions of
    the links in it) give the same size, whatever else they hold. *)
Theorem get_dir_size_depends_on_subtree_only (p : path) (fs fs' : Links.node) :
  Links.wf_node fs = true ->
  Links.wf_node fs' = true ->
  Links.directory_at p fs = Links.directory_at p fs' ->
  Links.get_dir_size p fs = Links.get_dir_size p fs'.
Proof.
  intros Hwf Hwf' Hsub. unfold Links.get_dir_size.
  rewrite (links_get_dir_size_total_sum p fs Hwf),
    (links_get_dir_size_total_sum p fs' Hwf').
  unfold Links.sum_regular_files_under, Links.sum_link_targets_under.
  rewrite Hsub. reflexivity.
Qed.

Lemma get_dir_size_depends_on_subtree_only_witness :
  Links.get_dir_size ["out"] linked_tree
  = Links.get_dir_size ["out"] linked_tree_elsewhere.
Proof.
  apply get_dir_size_depends_on_subtree_only; reflexivity.
Defined.
